(** * Sprite-sheet packer and Godot resource writer: a shallow embedding

  This development embeds [sprite_sheet_node.py] in Rocq and proves the
  properties of its two nodes:

  - [CreateSpriteSheetImageNode.create_sprite_sheet] (the grid packer), and
  - [CreateGodotTresFileNode.create_tres_file] (the resource serializer).

  Python integers are [Z]; Python [str] values are lists of Unicode code
  points; byte strings are lists of [Byte.byte]; exceptions are values of
  [exn] carried by [result].  The file system is a finite map from path
  strings to nodes, and the operating system's entropy source is a tape
  of bytes with a read cursor. *)

From Stdlib Require Import ZArith Lia Ascii String Strings.Byte.
From Stdlib Require Import QArith Qround.
From Stdlib Require Import DecimalFacts DecimalPos DecimalN DecimalZ.
From stdpp Require Import base option list gmap.

Open Scope Z_scope.

(** ** Python values and built-ins *)

Module Py.

(** A Python [str]: a sequence of Unicode code points. *)
Abbreviation str := (list N).

(** An ASCII literal of the source, as a [str]. *)
Definition lit (s : string) : str := N_of_ascii <$> list_ascii_of_string s.

(** The double-quote character, which the source writes inside its
    single-quoted literals. *)
Definition dq : str := [34%N].

(** The newline escape of the source's literals. *)
Definition nl : str := [10%N].

Inductive exn :=
| ValueError (msg : str)
| ZeroDivisionError.

Inductive result (A : Type) :=
| Ok (a : A)
| Raise (e : exn).
Arguments Ok {A} a.
Arguments Raise {A} e.

(** [range(n)] *)
Definition range (n : Z) : list Z := Z.of_nat <$> seq 0 (Z.to_nat n).

(** [divmod(a, b)] on integers: floor division and the remainder with the
    sign of the divisor; division by zero raises. *)
Definition divmod (a b : Z) : result (Z * Z) :=
  if b =? 0 then Raise ZeroDivisionError else Ok (a / b, a mod b).

(** Decimal digits of an unsigned decimal number, most significant first. *)
Fixpoint digit_codes (d : Decimal.uint) : str :=
  match d with
  | Decimal.Nil => []
  | Decimal.D0 d => 48%N :: digit_codes d
  | Decimal.D1 d => 49%N :: digit_codes d
  | Decimal.D2 d => 50%N :: digit_codes d
  | Decimal.D3 d => 51%N :: digit_codes d
  | Decimal.D4 d => 52%N :: digit_codes d
  | Decimal.D5 d => 53%N :: digit_codes d
  | Decimal.D6 d => 54%N :: digit_codes d
  | Decimal.D7 d => 55%N :: digit_codes d
  | Decimal.D8 d => 56%N :: digit_codes d
  | Decimal.D9 d => 57%N :: digit_codes d
  end.

(** [str(z)], also what an f-string field [{z}] produces for an integer. *)
Definition str_of_int (z : Z) : str :=
  match Z.to_int z with
  | Decimal.Pos d => digit_codes d
  | Decimal.Neg d => 45%N :: digit_codes d
  end.

(** [s.zfill]-style left padding with the digit zero up to [width]. *)
Definition zero_fill (width : nat) (s : str) : str :=
  replicate (width - length s)%nat 48%N ++ s.

(** The f-string field [{z:0{width}}]: sign-aware zero padding of the
    decimal digits up to [width] characters. *)
Definition format_zero_padded (z : Z) (width : nat) : str :=
  match Z.to_int z with
  | Decimal.Pos d => zero_fill width (digit_codes d)
  | Decimal.Neg d => 45%N :: zero_fill (width - 1) (digit_codes d)
  end.

(** [str.isspace] on one code point: the characters Python treats as
    white space. *)
Definition isspace (c : N) : bool :=
  ((9 <=? c) && (c <=? 13) || (28 <=? c) && (c <=? 32)
   || (c =? 133) || (c =? 160) || (c =? 5760)
   || (8192 <=? c) && (c <=? 8202)
   || (c =? 8232) || (c =? 8233) || (c =? 8239) || (c =? 8287)
   || (c =? 12288))%N.

Fixpoint lstrip (s : str) : str :=
  match s with
  | c :: s' => if isspace c then lstrip s' else s
  | [] => []
  end.

(** [s.strip()] *)
Definition strip (s : str) : str := reverse (lstrip (reverse (lstrip s))).

(** [s.startswith("/")] *)
Definition starts_with_sep (s : str) : bool :=
  match s with
  | c :: _ => (c =? 47)%N
  | [] => false
  end.

(** [s.endswith("/")] *)
Definition ends_with_sep (s : str) : bool := starts_with_sep (reverse s).

(** [os.path.isabs] (POSIX) *)
Definition os_path_isabs (s : str) : bool := starts_with_sep s.

(** [os.path.join(a, b)] (POSIX): an absolute second component replaces
    the first; otherwise the two are joined by one separator. *)
Definition os_path_join (a b : str) : str :=
  if starts_with_sep b then b
  else if bool_decide (a = []) || ends_with_sep a then a ++ b
  else a ++ lit "/" ++ b.

(** One lowercase hexadecimal digit. *)
Definition hex_digit (n : N) : N :=
  (if n <? 10 then 48 + n else 87 + n)%N.

(** [bytes.hex()] *)
Definition hex (bs : list byte) : str :=
  bs ≫= (λ b, let n := Byte.to_N b in [hex_digit (n / 16); hex_digit (n mod 16)]%N).

End Py.

(** ** The imaging library: modes, images, [Image.new], [Image.paste] *)

Module PIL.

(** The three pixel formats that occur: a grey band (the alpha mask),
    three-band colour and four-band colour with transparency. *)
Inductive mode := L | RGB | RGBA.

Global Instance mode_eq_dec : EqDecision mode.
Proof. solve_decision. Defined.

Definition bands (m : mode) : nat :=
  match m with L => 1 | RGB => 3 | RGBA => 4 end%nat.

(** An image: its mode, its size, and the 8-bit value of band [c] at
    column [x], row [y]. *)
Record image := Image {
  im_mode : mode;
  width : Z;
  height : Z;
  getband : Z → Z → nat → Z
}.

(** An [H x W x C] array of 8-bit values, indexed [row, column, channel]. *)
Record ndarray := NdArray {
  nd_rows : nat;
  nd_cols : nat;
  nd_chans : nat;
  nd_at : nat → nat → nat → Z
}.

(** [Image.fromarray(arr, mode)] *)
Definition fromarray (arr : ndarray) (m : mode) : image :=
  {| im_mode := m;
     width := Z.of_nat (nd_cols arr);
     height := Z.of_nat (nd_rows arr);
     getband := λ x y c, nd_at arr (Z.to_nat y) (Z.to_nat x) c |}.

(** [np.array(image)] *)
Definition asarray (im : image) : ndarray :=
  {| nd_rows := Z.to_nat (height im);
     nd_cols := Z.to_nat (width im);
     nd_chans := bands (im_mode im);
     nd_at := λ y x c, getband im (Z.of_nat x) (Z.of_nat y) c |}.

(** [Image.new(mode, size, color)] with a colour tuple. *)
Definition new (m : mode) (size : Z * Z) (color : list Z) : image :=
  {| im_mode := m;
     width := size.1;
     height := size.2;
     getband := λ _ _ c, default 0 (color !! c) |}.

(** [image.split()[k]]: band [k] as a grey image. *)
Definition split_band (im : image) (k : nat) : image :=
  {| im_mode := L;
     width := width im;
     height := height im;
     getband := λ x y _, getband im x y k |}.

(** The library's fixed-point luma of a colour pixel. *)
Definition luma (r g b : Z) : Z :=
  Z.shiftr (r * 19595 + g * 38470 + b * 7471 + 32768) 16.

(** [image.convert(mode)] between the modes above: a missing alpha band
    is filled with 255 (opaque). *)
Definition convert (im : image) (m : mode) : image :=
  {| im_mode := m;
     width := width im;
     height := height im;
     getband := λ x y c,
       match im_mode im, m with
       | L, L | RGB, RGB | RGBA, RGBA | RGBA, RGB => getband im x y c
       | L, RGB => getband im x y 0
       | L, RGBA => if (c <? 3)%nat then getband im x y 0 else 255
       | RGB, RGBA => if (c <? 3)%nat then getband im x y c else 255
       | RGB, L | RGBA, L =>
           luma (getband im x y 0) (getband im x y 1) (getband im x y 2)
       end |}.

(** The library's rounding division by 255 and its 8-bit blend. *)
Definition DIV255 (a : Z) : Z :=
  let tmp := a + 128 in Z.shiftr (Z.shiftr tmp 8 + tmp) 8.

Definition BLEND8 (mask in1 in2 : Z) : Z :=
  DIV255 (in1 * (255 - mask) + in2 * mask).

(** [self.paste(im, (x0, y0), mask)].  The box is the source's extent at
    the given origin, clipped to the destination.  A source of another
    mode is converted to the destination's mode first.  Without a mask
    the source replaces the destination inside the box; with a grey mask
    every band is blended by the mask value at the source position.
    The mask has the source's size here, so the library's size check
    passes. *)
Definition paste (self im : image) (box : Z * Z) (mask : option image) : image :=
  let '(x0, y0) := box in
  let src := if decide (im_mode self = im_mode im) then im
             else convert im (im_mode self) in
  {| im_mode := im_mode self;
     width := width self;
     height := height self;
     getband := λ x y c,
       if (x0 <=? x) && (x <? x0 + width im) && (y0 <=? y) && (y <? y0 + height im)
          && (0 <=? x) && (x <? width self) && (0 <=? y) && (y <? height self)
       then match mask with
            | None => getband src (x - x0) (y - y0) c
            | Some m =>
                BLEND8 (getband m (x - x0) (y - y0) 0)
                       (getband self x y c)
                       (getband src (x - x0) (y - y0) c)
            end
       else getband self x y c |}.

End PIL.

(** ** Node 1: the grid packer *)

Module Packer.
Import Py PIL.

(** The numeric runtime of the host: the element type of image tensors
    and the two conversions the node applies to it. *)
Class NumericRuntime (F : Type) := {
  (** [np.clip(x * 255, 0, 255).astype(np.uint8)] on one element *)
  quantize : F → Z;
  (** [np.float32(v) / 255.0] on one 8-bit value *)
  normalize : Z → F
}.

(** A [B x H x W x C] tensor, indexed [frame, row, column, channel]. *)
Record tensor (F : Type) := Tensor {
  t_batch : nat;
  t_rows : nat;
  t_cols : nat;
  t_chans : nat;
  t_at : nat → nat → nat → nat → F
}.
Arguments Tensor {F}.
Arguments t_batch {F}.
Arguments t_rows {F}.
Arguments t_cols {F}.
Arguments t_chans {F}.
Arguments t_at {F}.

Section Node.
Context {F : Type} `{NumericRuntime F}.

(** The 8-bit array of frame [i] of the batch. *)
Definition frame_array (t : tensor F) (i : nat) : ndarray :=
  {| nd_rows := t_rows t;
     nd_cols := t_cols t;
     nd_chans := t_chans t;
     nd_at := λ y x c, quantize (t_at t i y x c) |}.

(** [tensor_to_pil]: frames with four channels become RGBA images,
    frames with three channels RGB images, any other frame is skipped. *)
Definition tensor_to_pil (t : tensor F) : list image :=
  omap (λ i,
          let img_np := frame_array t i in
          if (nd_chans img_np =? 4)%nat then Some (fromarray img_np RGBA)
          else if (nd_chans img_np =? 3)%nat then Some (fromarray img_np RGB)
          else None)
       (seq 0 (t_batch t)).

(** [max(...)] over a non-empty sequence, given as head and tail. *)
Definition max_of (x : Z) (xs : list Z) : Z := foldl Z.max x xs.

(** The grid layout the node derives before it allocates the canvas. *)
Record layout := Layout {
  frame_count : Z;
  column_count : Z;
  row_count : Z;
  frame_width : Z;
  frame_height : Z
}.

Definition grid_layout (first : image) (rest : list image)
    (column_count row_count : Z) : layout :=
  let pil_images := first :: rest in
  let frame_count := Z.of_nat (length pil_images) in
  let column_count := if column_count <=? 0 then 1 else column_count in
  let row_count :=
    if row_count <=? 0
    then (frame_count + column_count - 1) / column_count
    else row_count in
  let frame_width := max_of (width first) (width <$> rest) in
  let frame_height := max_of (height first) (height <$> rest) in
  Layout frame_count column_count row_count frame_width frame_height.

(** The transparent canvas. *)
Definition blank_grid (g : layout) : image :=
  new RGBA (frame_width g * column_count g, frame_height g * row_count g)
      [0; 0; 0; 0].

(** The destination origin of frame [i]: [divmod] by the column count,
    which is at least one here. *)
Definition cell_origin (g : layout) (i : Z) : Z * Z :=
  let '(row, col) := (i / column_count g, i mod column_count g) in
  (col * frame_width g, row * frame_height g).

(** The paste mask of a frame: its alpha band when it has one. *)
Definition paste_mask (pil_image : image) : option image :=
  if decide (im_mode pil_image = RGBA) then Some (split_band pil_image 3)
  else None.

(** The placement loop over [enumerate(pil_images)], from index [i]. *)
Fixpoint paste_frames (g : layout) (i : Z) (pil_images : list image)
    (grid_image : image) : image :=
  match pil_images with
  | [] => grid_image
  | pil_image :: rest =>
      if i >=? column_count g * row_count g then grid_image
      else
        paste_frames g (i + 1) rest
          (paste grid_image pil_image (cell_origin g i) (paste_mask pil_image))
  end.

(** The composite image after the loop. *)
Definition compose (g : layout) (pil_images : list image) : image :=
  paste_frames g 0 pil_images (blank_grid g).

(** The composite as a one-element batch of normalized values. *)
Definition to_tensor (grid_image : image) : tensor F :=
  let arr := asarray grid_image in
  {| t_batch := 1;
     t_rows := nd_rows arr;
     t_cols := nd_cols arr;
     t_chans := nd_chans arr;
     t_at := λ _ y x c, normalize (nd_at arr y x c) |}.

(** [create_sprite_sheet(images, column_count, row_count)] *)
Definition create_sprite_sheet (images : tensor F) (column_count row_count : Z)
    : result (tensor F * Z * Z * Z) :=
  match tensor_to_pil images with
  | [] => Raise (ValueError (lit "Input images are empty."))
  | first :: rest =>
      let g := grid_layout first rest column_count row_count in
      let grid_image := compose g (first :: rest) in
      Ok (to_tensor grid_image, frame_width g, frame_height g, frame_count g)
  end.

End Node.

End Packer.

(** ** Node 2: the Godot resource writer *)

Module Tres.
Import Py.

(** A file-system entry. *)
Inductive node := Dir | File (content : str).

(** What the node sees of its process: the file system as a finite map
    from paths to entries, the host's base path
    ([folder_paths.get_base_path()]), and the entropy tape behind
    [os.urandom] with its read position.  The file-system calls are
    modelled on their successful outcome only: the errors the operating
    system can report (a missing parent directory, a regular file where a
    directory is wanted, permissions, names the system refuses) are not
    represented, so what is proved about a call of the node is about what
    it writes and where, when these calls go through. *)
Record world := World {
  fs : gmap str node;
  base_path : str;
  entropy : nat → byte;
  cursor : nat
}.

(** Computations that read and change the world and may raise. *)
Definition M (A : Type) : Type := world → world * result A.

Global Instance M_ret : MRet M := λ A a w, (w, Ok a).
Global Instance M_bind : MBind M := λ A B f m w,
  match m w with
  | (w', Ok a) => f a w'
  | (w', Raise e) => (w', Raise e)
  end.

(** Lifting a pure computation that may raise. *)
Definition lift {A} (r : result A) : M A := λ w, (w, r).

(** [os.urandom(n)] *)
Definition os_urandom (n : nat) : M (list byte) := λ w,
  ({| fs := fs w; base_path := base_path w; entropy := entropy w;
      cursor := (cursor w + n)%nat |},
   Ok (entropy w <$> seq (cursor w) n)).

(** [os.path.exists(p)] *)
Definition os_path_exists (w : world) (p : str) : bool :=
  bool_decide (is_Some (fs w !! p)).

(** [os.makedirs(p, exist_ok=True)], when it succeeds: afterwards [p]
    exists, and nothing that existed has changed.  The map records the
    leaf only; the call's failure when [p] is a regular file is outside
    the model. *)
Definition os_makedirs (p : str) : M unit := λ w,
  (match fs w !! p with
   | Some _ => w
   | None => {| fs := <[p := Dir]> (fs w); base_path := base_path w;
                entropy := entropy w; cursor := cursor w |}
   end, Ok ()).

(** [with open(p, 'w', encoding='utf-8') as f: f.write(content)], when
    it succeeds: afterwards [p] is a file with that content.  The
    failures of [open] and of the encoder are outside the model. *)
Definition write_text (p content : str) : M unit := λ w,
  ({| fs := <[p := File content]> (fs w); base_path := base_path w;
      entropy := entropy w; cursor := cursor w |}, Ok ()).

(** [", ".join(parts)] *)
Fixpoint join_with (sep : str) (parts : list str) : str :=
  match parts with
  | [] => []
  | [p] => p
  | p :: rest => p ++ sep ++ join_with sep rest
  end.

(** The loop that appends one sub-resource block per frame index. *)
Fixpoint sub_resources_loop (image_resource_id : str)
    (frame_width frame_height column_count : Z)
    (indices : list Z) (sub_resources : str) : result str :=
  match indices with
  | [] => Ok sub_resources
  | i :: rest =>
      match divmod i column_count with
      | Raise e => Raise e
      | Ok (row, col) =>
          let '(x, y) := (col * frame_width, row * frame_height) in
          let sub_resources := sub_resources ++
            lit "[sub_resource type=" ++ dq ++ lit "AtlasTexture" ++ dq ++
            lit " id=" ++ dq ++ lit "AtlasTexture_" ++ str_of_int (i + 1) ++ dq ++
            lit "]" ++ nl in
          let sub_resources := sub_resources ++
            lit "atlas = ExtResource(" ++ dq ++ image_resource_id ++ dq ++
            lit ")" ++ nl in
          let sub_resources := sub_resources ++
            lit "region = Rect2(" ++ str_of_int x ++ lit ", " ++ str_of_int y ++
            lit ", " ++ str_of_int frame_width ++ lit ", " ++
            str_of_int frame_height ++ lit ")" ++ nl ++ nl in
          sub_resources_loop image_resource_id frame_width frame_height
            column_count rest sub_resources
      end
  end.

(** One entry of the animation's frame list. *)
Definition frame_entry (i : Z) : str :=
  lit "{ " ++ dq ++ lit "duration" ++ dq ++ lit ": 1.0, " ++ dq ++
  lit "texture" ++ dq ++ lit ": SubResource(" ++ dq ++ lit "AtlasTexture_" ++
  str_of_int (i + 1) ++ dq ++ lit ") }".

(** [generate_godot_tres_content] *)
Definition generate_godot_tres_content (image_filename : str)
    (frame_width frame_height frame_count column_count : Z) : M str :=
  r ← os_urandom 5;
  let image_resource_id := lit "1_" ++ hex r in
  r ← os_urandom 12;
  let tres_content :=
    lit "[gd_resource type=" ++ dq ++ lit "SpriteFrames" ++ dq ++
    lit " load_steps=" ++ str_of_int (frame_count + 2) ++
    lit " format=3 uid=" ++ dq ++ lit "uid://" ++ hex r ++ dq ++
    lit "]" ++ nl ++ nl in
  r ← os_urandom 12;
  let tres_content := tres_content ++
    lit "[ext_resource type=" ++ dq ++ lit "Texture2D" ++ dq ++
    lit " uid=" ++ dq ++ lit "uid://" ++ hex r ++ dq ++
    lit " path=" ++ dq ++ image_filename ++ dq ++
    lit " id=" ++ dq ++ image_resource_id ++ dq ++ lit "]" ++ nl ++ nl in
  sub_resources ← lift (sub_resources_loop image_resource_id frame_width
                          frame_height column_count (range frame_count) []);
  let tres_content := tres_content ++ sub_resources in
  let tres_content := tres_content ++ lit "[resource]" ++ nl in
  let tres_content := tres_content ++
    lit "animations = [{" ++ nl ++ dq ++ lit "frames" ++ dq ++ lit ": [ " in
  let frame_list := frame_entry <$> range frame_count in
  let tres_content := tres_content ++ join_with (lit ", ") frame_list in
  let tres_content := tres_content ++
    lit " ]," ++ nl ++ dq ++ lit "loop" ++ dq ++ lit ": true," ++ nl ++
    dq ++ lit "name" ++ dq ++ lit ": &" ++ dq ++ lit "default" ++ dq ++
    lit "," ++ nl ++ dq ++ lit "speed" ++ dq ++ lit ": 5.0" ++ nl ++ lit "}]" in
  mret tres_content.

(** The file-name scan of [create_tres_file], over any existence test. *)
Section NameScan.
Variable path_exists : str → bool.
Variables target_dir filename_prefix : str.
Variable number_padding : nat.

Definition base_name_at (i : Z) : str :=
  filename_prefix ++ lit "_" ++ format_zero_padded i number_padding.

Definition tres_path_at (i : Z) : str :=
  let tres_filename := base_name_at i ++ lit ".tres" in
  os_path_join target_dir tres_filename.

(** The [while True] loop from index [i]; [None] only when the fuel
    runs out before a free name is met. *)
Fixpoint scan_names (fuel : nat) (i : Z) : option (Z * str * str) :=
  match fuel with
  | O => None
  | S fuel =>
      let base_name := base_name_at i in
      let full_tres_path := tres_path_at i in
      if negb (path_exists full_tres_path)
      then Some (i, base_name, full_tres_path)
      else scan_names fuel (i + 1)
  end.
End NameScan.

(** The directory [create_tres_file] writes to: the stripped user path,
    resolved against the host's base path unless it is absolute. *)
Definition resolve_target_dir (save_directory_path : str) (w : world) : str :=
  let user_path := strip save_directory_path in
  if negb (os_path_isabs user_path)
  then os_path_join (base_path w) user_path else user_path.

(** [create_tres_file].  [fuel] bounds the iterations of the file-name
    scan, and the result is [None] only when it runs out.  The padding
    width is a natural number, as the node's input declaration has it
    (minimum 1).  The node returns the path in a one-element tuple; the
    message it prints on success is not part of the model. *)
Definition create_tres_file (fuel : nat)
    (frame_width frame_height frame_count column_count : Z)
    (filename_prefix save_directory_path : str) (number_padding : nat)
    (w : world) : option (world * result str) :=
  let target_dir := resolve_target_dir save_directory_path w in
  let '(w, _) := os_makedirs target_dir w in
  match scan_names (os_path_exists w) target_dir filename_prefix
          number_padding fuel 1 with
  | None => None
  | Some (_, base_name, full_tres_path) =>
      let image_filename := base_name ++ lit ".png" in
      Some ((tres_content ←
               generate_godot_tres_content image_filename frame_width
                 frame_height frame_count column_count;
             _ ← write_text full_tres_path tres_content;
             mret full_tres_path) w)
  end.

End Tres.

(** ** Notions the properties are stated with *)

Module Spec.
Import Py PIL Packer Tres.

(** The mode [tensor_to_pil] gives to the frames of a batch. *)
Definition batch_mode {F : Type} (t : tensor F) : mode :=
  if (t_chans t =? 4)%nat then RGBA else RGB.

(** The extent a source image covers when pasted at [box]. *)
Definition in_box (box : Z * Z) (im : image) (x y : Z) : Prop :=
  box.1 ≤ x < box.1 + width im ∧ box.2 ≤ y < box.2 + height im.

(** A position of the destination image. *)
Definition in_image (im : image) (x y : Z) : Prop :=
  0 ≤ x < width im ∧ 0 ≤ y < height im.

(** Two images of one shape. *)
Definition same_shape (a b : image) : Prop :=
  im_mode a = im_mode b ∧ width a = width b ∧ height a = height b.

(** Row-major placement as the specification words it: the given frames,
    in order from index [i], each blitted at origin
    [((i mod column_count) * frame_width, (i div column_count) * frame_height)]
    with its alpha band as mask when it has one; no capacity check. *)
Fixpoint blit_from (g : layout) (i : Z) (frames : list image) (canvas : image)
    : image :=
  match frames with
  | [] => canvas
  | frame :: frames' =>
      blit_from g (i + 1) frames'
        (paste canvas frame
           ((i mod column_count g) * frame_width g,
            (i / column_count g) * frame_height g)
           (paste_mask frame))
  end.

(** The persisted format, piece by piece, as the specification lays it
    out: the header line, the external reference to the image, one
    sub-resource block per frame, and the resource block. *)
Definition gd_resource_line (load_steps : Z) (uid : str) : str :=
  lit "[gd_resource type=" ++ dq ++ lit "SpriteFrames" ++ dq ++
  lit " load_steps=" ++ str_of_int load_steps ++
  lit " format=3 uid=" ++ dq ++ lit "uid://" ++ uid ++ dq ++ lit "]" ++ nl ++ nl.

Definition ext_resource_line (uid image_filename image_resource_id : str) : str :=
  lit "[ext_resource type=" ++ dq ++ lit "Texture2D" ++ dq ++
  lit " uid=" ++ dq ++ lit "uid://" ++ uid ++ dq ++
  lit " path=" ++ dq ++ image_filename ++ dq ++
  lit " id=" ++ dq ++ image_resource_id ++ dq ++ lit "]" ++ nl ++ nl.

(** The block of sub-resource number [n] (counted from one) declaring the
    rectangle [Rect2(x, y, w, h)]. *)
Definition sub_resource_block (image_resource_id : str) (n x y w h : Z) : str :=
  lit "[sub_resource type=" ++ dq ++ lit "AtlasTexture" ++ dq ++
  lit " id=" ++ dq ++ lit "AtlasTexture_" ++ str_of_int n ++ dq ++ lit "]" ++ nl ++
  lit "atlas = ExtResource(" ++ dq ++ image_resource_id ++ dq ++ lit ")" ++ nl ++
  lit "region = Rect2(" ++ str_of_int x ++ lit ", " ++ str_of_int y ++
  lit ", " ++ str_of_int w ++ lit ", " ++ str_of_int h ++ lit ")" ++ nl ++ nl.

(** The block for frame index [i] under the row-major placement formula
    of the grid packer. *)
Definition frame_block (image_resource_id : str)
    (frame_width frame_height column_count i : Z) : str :=
  sub_resource_block image_resource_id (i + 1)
    ((i mod column_count) * frame_width) ((i / column_count) * frame_height)
    frame_width frame_height.

Definition resource_block (frame_count : Z) : str :=
  lit "[resource]" ++ nl ++
  lit "animations = [{" ++ nl ++ dq ++ lit "frames" ++ dq ++ lit ": [ " ++
  join_with (lit ", ") (frame_entry <$> range frame_count) ++
  lit " ]," ++ nl ++ dq ++ lit "loop" ++ dq ++ lit ": true," ++ nl ++
  dq ++ lit "name" ++ dq ++ lit ": &" ++ dq ++ lit "default" ++ dq ++
  lit "," ++ nl ++ dq ++ lit "speed" ++ dq ++ lit ": 5.0" ++ nl ++ lit "}]".

(** The world after [n] more bytes of entropy were read. *)
Definition advance (n : nat) (w : world) : world :=
  {| fs := fs w; base_path := base_path w; entropy := entropy w;
     cursor := (cursor w + n)%nat |}.

(** The bytes [os.urandom(n)] returns at read position [pos]. *)
Definition entropy_at (w : world) (pos n : nat) : list byte :=
  entropy w <$> seq pos n.

(** The world after the target directory was created. *)
Definition prepared (save_directory_path : str) (w : world) : world :=
  (os_makedirs (resolve_target_dir save_directory_path w) w).1.

(** The document written for a given image file name from world [w]. *)
Definition document (image_filename : str) (fw fh fc cc : Z) (w : world) : str :=
  let id := lit "1_" ++ hex (entropy_at w (cursor w) 5) in
  gd_resource_line (fc + 2) (hex (entropy_at w (cursor w + 5) 12)) ++
  ext_resource_line (hex (entropy_at w (cursor w + 17) 12)) image_filename id ++
  concat (frame_block id fw fh cc <$> range fc) ++
  resource_block fc.

(** The world [w] with one more file and 29 bytes of entropy consumed. *)
Definition written (path content : str) (w : world) : world :=
  {| fs := <[path := File content]> (fs w); base_path := base_path w;
     entropy := entropy w; cursor := (cursor w + 29)%nat |}.

End Spec.

(** ** Sample inputs

  An exact-arithmetic numeric runtime over the rationals, and a few small
  batches, used to run the nodes on concrete inputs. *)

Module Samples.
Import Py PIL Packer Tres.

(** Elements are rationals; quantization clips [x * 255] to [0, 255] and
    truncates, normalization divides by 255, both without rounding error. *)
Global Instance exact_runtime : NumericRuntime Q := {|
  quantize := λ x, Z.max 0 (Z.min 255 (Qfloor (Qmult x (Qmake 255 1))));
  normalize := λ v, Qmake v 255
|}.

(** One 1 x 1 frame with a single (grey) channel. *)
Definition grey_batch : tensor Q :=
  Tensor 1 1 1 1 (λ _ _ _ _, Qmake 1 1).

(** The empty batch of three-channel frames. *)
Definition empty_batch : tensor Q :=
  Tensor 0 1 1 3 (λ _ _ _ _, Qmake 1 1).

(** [n] opaque white frames of 2 x 2 pixels, three channels. *)
Definition opaque_batch (n : nat) : tensor Q :=
  Tensor n 2 2 3 (λ _ _ _ _, Qmake 1 1).

(** Four opaque white frames of 64 x 64 pixels. *)
Definition opaque_64 : tensor Q :=
  Tensor 4 64 64 3 (λ _ _ _ _, Qmake 1 1).

(** Two 2 x 2 four-channel frames; the first is white with alpha 0 at
    row 0, column 0 and alpha 1 elsewhere, the second fully opaque. *)
Definition alpha_batch : tensor Q :=
  Tensor 2 2 2 4
    (λ i y x c,
       if (c =? 3)%nat && (i =? 0)%nat && (y =? 0)%nat && (x =? 0)%nat
       then Qmake 0 1 else Qmake 1 1).

(** The images a batch of mode [m] decodes to, as head and tail. *)
Definition decoded_head (t : tensor Q) (m : mode) : image :=
  fromarray (frame_array t 0) m.

Definition decoded_tail (t : tensor Q) (m : mode) : list image :=
  (λ i, fromarray (frame_array t i) m) <$> seq 1 (t_batch t - 1).

(** A process with an empty file system, base path [/base], and an
    entropy tape that counts upwards. *)
Definition fresh_world : world :=
  World ∅ (lit "/base") (λ n, default x00 (Byte.of_N (N.of_nat n))) 0.

(** An existence test under which exactly the first candidate is taken. *)
Definition only_first_taken (p : str) : bool :=
  bool_decide (p = tres_path_at (lit "/base/out") (lit "anim") 2 1).

End Samples.

(** * Properties of the grid packer *)

Section PackerFacts.
Import Py PIL Packer Spec.
Context {F : Type} `{NumericRuntime F}.

Lemma tensor_to_pil_supported (t : tensor F) :
  t_chans t = 3%nat ∨ t_chans t = 4%nat →
  tensor_to_pil t =
    (λ i, fromarray (frame_array t i) (batch_mode t)) <$> seq 0 (t_batch t).
Proof.
  intros Hc. unfold tensor_to_pil, batch_mode.
  induction (seq 0 (t_batch t)) as [|i l IH]; [done|].
  cbn [omap list_omap fmap list_fmap]. rewrite IH.
  cbn [nd_chans frame_array].
  by destruct Hc as [-> | ->].
Qed.

Lemma tensor_to_pil_unsupported (t : tensor F) :
  t_chans t ≠ 3%nat → t_chans t ≠ 4%nat → tensor_to_pil t = [].
Proof.
  intros H3 H4. unfold tensor_to_pil.
  induction (seq 0 (t_batch t)) as [|i l IH]; [done|].
  cbn [omap list_omap]. rewrite IH. cbn [nd_chans frame_array].
  destruct (Nat.eqb_spec (t_chans t) 4); [done|].
  by destruct (Nat.eqb_spec (t_chans t) 3).
Qed.

Lemma tensor_to_pil_length (t : tensor F) :
  t_chans t = 3%nat ∨ t_chans t = 4%nat →
  length (tensor_to_pil t) = t_batch t.
Proof.
  intros Hc. rewrite (tensor_to_pil_supported t Hc).
  by rewrite length_fmap, length_seq.
Qed.

(** The decoded list is empty exactly for an empty batch or a batch of
    frames that are neither three- nor four-channel. *)
Lemma tensor_to_pil_nil_iff (t : tensor F) :
  tensor_to_pil t = [] ↔
  t_batch t = 0%nat ∨ (t_chans t ≠ 3%nat ∧ t_chans t ≠ 4%nat).
Proof.
  split.
  - intros Hnil.
    destruct (decide (t_chans t = 3%nat)) as [H3|H3];
      [|destruct (decide (t_chans t = 4%nat)) as [H4|H4]]; [| |by right].
    + left. rewrite <- (tensor_to_pil_length t) by auto. by rewrite Hnil.
    + left. rewrite <- (tensor_to_pil_length t) by auto. by rewrite Hnil.
  - intros [H0 | [H3 H4]]; [|by apply tensor_to_pil_unsupported].
    unfold tensor_to_pil. by rewrite H0.
Qed.

(** What the node returns once the decoded list is known. *)
Lemma create_sprite_sheet_decoded (t : tensor F) cc rc first rest :
  tensor_to_pil t = first :: rest →
  let g := grid_layout first rest cc rc in
  create_sprite_sheet t cc rc =
    Ok (to_tensor (compose g (first :: rest)),
        frame_width g, frame_height g, frame_count g).
Proof. intros Hd. unfold create_sprite_sheet. by rewrite Hd. Qed.

Lemma create_sprite_sheet_nil (t : tensor F) cc rc :
  tensor_to_pil t = [] →
  create_sprite_sheet t cc rc = Raise (ValueError (lit "Input images are empty.")).
Proof. intros Hd. unfold create_sprite_sheet. by rewrite Hd. Qed.

End PackerFacts.

(** ** Pasting: shape and single-pixel behaviour *)

Section PasteFacts.
Import Py PIL Packer Spec.

Lemma paste_shape self im box m : same_shape (paste self im box m) self.
Proof. by destruct box. Qed.

Lemma paste_getband_outside self im box m x y c :
  ¬ in_box box im x y →
  getband (paste self im box m) x y c = getband self x y c.
Proof.
  destruct box as [x0 y0]. unfold in_box. simpl. intros Hout.
  destruct (_ && _) eqn:E; [|done].
  rewrite !andb_true_iff in E. exfalso. apply Hout. lia.
Qed.

Lemma paste_getband_inside self im box m x y c :
  in_box box im x y → in_image self x y →
  getband (paste self im box m) x y c =
    let src := if decide (im_mode self = im_mode im) then im
               else convert im (im_mode self) in
    match m with
    | None => getband src (x - box.1) (y - box.2) c
    | Some mk =>
        BLEND8 (getband mk (x - box.1) (y - box.2) 0)
               (getband self x y c)
               (getband src (x - box.1) (y - box.2) c)
    end.
Proof.
  destruct box as [x0 y0]. unfold in_box, in_image. simpl. intros Hin Him.
  destruct (_ && _) eqn:E; [done|].
  rewrite !andb_false_iff in E. lia.
Qed.

(** A paste reads the destination only at the position it writes. *)
Lemma paste_getband_ext self self' im box m x y c :
  same_shape self self' →
  getband self x y c = getband self' x y c →
  getband (paste self im box m) x y c = getband (paste self' im box m) x y c.
Proof.
  destruct box as [x0 y0]. intros (Hm & Hw & Hh) Hpx. simpl.
  rewrite Hm, Hw, Hh, Hpx. done.
Qed.

Lemma paste_frames_shape g i pil grid :
  same_shape (paste_frames g i pil grid) grid.
Proof.
  revert i grid. induction pil as [|im pil IH]; intros i grid; cbn [paste_frames].
  - done.
  - destruct (_ >=? _); [done|].
    destruct (IH (i + 1) (paste grid im (cell_origin g i) (paste_mask im)))
      as (Hm & Hw & Hh).
    destruct (paste_shape grid im (cell_origin g i) (paste_mask im))
      as (Hm' & Hw' & Hh').
    repeat split; congruence.
Qed.

(** Frames from index [i] on that the loop reaches and whose extent
    misses a position leave it as it was. *)
Lemma paste_frames_untouched g pil i grid x y c :
  (∀ k im, pil !! k = Some im →
     i + Z.of_nat k < column_count g * row_count g →
     ¬ in_box (cell_origin g (i + Z.of_nat k)) im x y) →
  getband (paste_frames g i pil grid) x y c = getband grid x y c.
Proof.
  revert i grid. induction pil as [|im pil IH]; intros i grid Hmiss; cbn [paste_frames].
  - done.
  - destruct (Z.geb_spec i (column_count g * row_count g)) as [Hge|Hlt]; [done|].
    rewrite IH.
    + apply paste_getband_outside.
      specialize (Hmiss 0%nat im eq_refl).
      rewrite Z.add_0_r in Hmiss. apply Hmiss. lia.
    + intros k im' Hk Hcap.
      specialize (Hmiss (S k) im' Hk).
      replace (i + Z.of_nat (S k)) with (i + 1 + Z.of_nat k) in Hmiss by lia.
      by apply Hmiss.
Qed.

(** A position covered by frame [k] alone shows that frame pasted onto
    the initial canvas. *)
Lemma paste_frames_hit g pil i grid k im x y c :
  pil !! k = Some im →
  i + Z.of_nat k < column_count g * row_count g →
  (∀ k' im', k' ≠ k → pil !! k' = Some im' →
     i + Z.of_nat k' < column_count g * row_count g →
     ¬ in_box (cell_origin g (i + Z.of_nat k')) im' x y) →
  getband (paste_frames g i pil grid) x y c =
  getband (paste grid im (cell_origin g (i + Z.of_nat k)) (paste_mask im)) x y c.
Proof.
  revert i grid k.
  induction pil as [|im0 pil IH]; intros i grid k Hk Hcap Hothers; [done|].
  cbn [paste_frames].
  destruct (Z.geb_spec i (column_count g * row_count g)) as [Hge|Hlt]; [lia|].
  destruct k as [|k].
  - simpl in Hk. injection Hk as ->. rewrite Z.add_0_r.
    apply paste_frames_untouched. intros k im' Hk' Hcap'.
    specialize (Hothers (S k) im' ltac:(done) Hk').
    replace (i + Z.of_nat (S k)) with (i + 1 + Z.of_nat k) in Hothers by lia.
    by apply Hothers.
  - simpl in Hk.
    replace (i + Z.of_nat (S k)) with (i + 1 + Z.of_nat k) in * by lia.
    rewrite (IH (i + 1) _ k Hk Hcap).
    + apply paste_getband_ext; [apply paste_shape|].
      apply paste_getband_outside.
      specialize (Hothers 0%nat im0 ltac:(done) eq_refl).
      rewrite Z.add_0_r in Hothers. apply Hothers. lia.
    + intros k' im' Hne Hk' Hcap'.
      specialize (Hothers (S k') im' ltac:(congruence) Hk').
      replace (i + Z.of_nat (S k')) with (i + 1 + Z.of_nat k') in Hothers by lia.
      by apply Hothers.
Qed.

End PasteFacts.

(** ** The grid layout and the composite image *)

Section LayoutFacts.
Import Py PIL Packer.

Lemma max_of_lower x xs : x ≤ max_of x xs.
Proof.
  unfold max_of. revert x. induction xs as [|a xs IH]; intros x; simpl; [lia|].
  specialize (IH (Z.max x a)). lia.
Qed.

Lemma max_of_ge x xs y : y ∈ x :: xs → y ≤ max_of x xs.
Proof.
  unfold max_of. revert x. induction xs as [|a xs IH]; intros x Hy; simpl.
  - apply list_elem_of_singleton in Hy. lia.
  - pose proof (max_of_lower (Z.max x a) xs) as Hlow. unfold max_of in Hlow.
    apply elem_of_cons in Hy as [-> | Hy]; [lia|].
    apply elem_of_cons in Hy as [-> | Hy]; [lia|].
    apply IH. by right.
Qed.

Lemma max_of_in x xs : max_of x xs ∈ x :: xs.
Proof.
  unfold max_of. revert x. induction xs as [|a xs IH]; intros x; simpl.
  - by left.
  - specialize (IH (Z.max x a)).
    apply elem_of_cons in IH as [Heq | Hin].
    + rewrite Heq. destruct (Z.max_spec x a) as [[_ ->] | [_ ->]].
      * right. by left.
      * by left.
    + right. by right.
Qed.

(** The cell extent is an upper bound of every frame's extent, attained
    by some frame in each direction. *)
Lemma grid_layout_frame_bounds first rest cc rc im :
  im ∈ first :: rest →
  width im ≤ frame_width (grid_layout first rest cc rc) ∧
  height im ≤ frame_height (grid_layout first rest cc rc).
Proof.
  intros Hin. cbn [grid_layout frame_width frame_height]. split.
  - apply max_of_ge. change (width im ∈ width <$> first :: rest).
    by apply list_elem_of_fmap_2.
  - apply max_of_ge. change (height im ∈ height <$> first :: rest).
    by apply list_elem_of_fmap_2.
Qed.

Lemma grid_layout_frame_attained first rest cc rc :
  (∃ im, im ∈ first :: rest ∧ width im = frame_width (grid_layout first rest cc rc)) ∧
  (∃ im, im ∈ first :: rest ∧ height im = frame_height (grid_layout first rest cc rc)).
Proof.
  cbn [grid_layout frame_width frame_height]. split.
  - pose proof (max_of_in (width first) (width <$> rest)) as Hin.
    change (max_of (width first) (width <$> rest) ∈ width <$> first :: rest) in Hin.
    apply list_elem_of_fmap in Hin as (im & Heq & Him). eauto.
  - pose proof (max_of_in (height first) (height <$> rest)) as Hin.
    change (max_of (height first) (height <$> rest) ∈ height <$> first :: rest) in Hin.
    apply list_elem_of_fmap in Hin as (im & Heq & Him). eauto.
Qed.

Lemma grid_layout_column_count first rest cc rc :
  column_count (grid_layout first rest cc rc) = (if cc <=? 0 then 1 else cc) ∧
  1 ≤ column_count (grid_layout first rest cc rc).
Proof.
  cbn [grid_layout column_count]. destruct (Z.leb_spec cc 0); lia.
Qed.

Lemma grid_layout_frame_count first rest cc rc :
  frame_count (grid_layout first rest cc rc) = Z.of_nat (length (first :: rest)).
Proof. done. Qed.

(** Ceiling division: the quotient [(n + d - 1) / d] is the least [r]
    with [n <= d * r]. *)
Lemma ceil_div_spec n d :
  1 ≤ d →
  let r := (n + d - 1) / d in (r - 1) * d < n ≤ r * d.
Proof.
  intros Hd r.
  pose proof (Z.div_mod (n + d - 1) d ltac:(lia)) as Hdm.
  pose proof (Z.mod_pos_bound (n + d - 1) d ltac:(lia)) as Hmod.
  fold r in Hdm. nia.
Qed.

(** Two distinct cells do not overlap. *)
Lemma cells_disjoint cc fw fh i j w h x y :
  1 ≤ cc → 0 ≤ i → 0 ≤ j → i ≠ j →
  w ≤ fw → h ≤ fh → 0 ≤ x < fw → 0 ≤ y < fh →
  ¬ ((j mod cc) * fw ≤ (i mod cc) * fw + x < (j mod cc) * fw + w ∧
     (j / cc) * fh ≤ (i / cc) * fh + y < (j / cc) * fh + h).
Proof.
  intros Hcc Hi Hj Hne Hw Hh Hx Hy [Hcol Hrow].
  assert (i mod cc = j mod cc) as Hc by nia.
  assert (i / cc = j / cc) as Hr by nia.
  apply Hne.
  rewrite (Z.div_mod i cc), (Z.div_mod j cc) by lia. congruence.
Qed.

End LayoutFacts.

(** ** The placement loop *)

Section ComposeFacts.
Import Py PIL Packer Spec.

(** The loop blits exactly the frames below the grid capacity. *)
Lemma paste_frames_take g pil i grid :
  paste_frames g i pil grid =
  blit_from g i (take (Z.to_nat (column_count g * row_count g - i)) pil) grid.
Proof.
  revert i grid. induction pil as [|im pil IH]; intros i grid.
  - by rewrite take_nil.
  - cbn [paste_frames].
    destruct (Z.geb_spec i (column_count g * row_count g)) as [Hge|Hlt].
    + by replace (Z.to_nat (column_count g * row_count g - i)) with 0%nat by lia.
    + replace (Z.to_nat (column_count g * row_count g - i))
        with (S (Z.to_nat (column_count g * row_count g - (i + 1)))) by lia.
      cbn [take blit_from]. by rewrite IH.
Qed.

(** Frames past the capacity do not influence the composite. *)
Lemma compose_take g pil :
  compose g pil = compose g (take (Z.to_nat (column_count g * row_count g)) pil).
Proof.
  unfold compose. rewrite !paste_frames_take, Z.sub_0_r.
  by rewrite take_take, Nat.min_id.
Qed.

(** Inside the extent of a placed frame the composite shows that frame
    pasted onto the blank canvas: no other frame reaches into its cell. *)
Lemma compose_pixel g pil k im x y c :
  1 ≤ column_count g →
  (∀ im', im' ∈ pil →
     width im' ≤ frame_width g ∧ height im' ≤ frame_height g) →
  pil !! k = Some im →
  Z.of_nat k < column_count g * row_count g →
  0 ≤ x < width im → 0 ≤ y < height im →
  let o := cell_origin g (Z.of_nat k) in
  getband (compose g pil) (o.1 + x) (o.2 + y) c =
  getband (paste (blank_grid g) im o (paste_mask im)) (o.1 + x) (o.2 + y) c.
Proof.
  intros Hcc Hfit Hk Hcap Hx Hy o. unfold compose, o.
  rewrite (paste_frames_hit g pil 0 (blank_grid g) k im); [done..|].
  intros k' im' Hne Hk' _ [Hcol Hrow].
  destruct (Hfit im (list_elem_of_lookup_2 _ _ _ Hk)) as [Hw Hh].
  destruct (Hfit im' (list_elem_of_lookup_2 _ _ _ Hk')) as [Hw' Hh'].
  rewrite !Z.add_0_l in *. unfold cell_origin in *. cbn [fst snd] in *.
  apply (cells_disjoint (column_count g) (frame_width g) (frame_height g)
           (Z.of_nat k) (Z.of_nat k') (width im') (height im') x y);
    [lia..|]. split; lia.
Qed.

(** A placed frame lies inside the canvas. *)
Lemma placed_frame_in_canvas g k im x y :
  1 ≤ column_count g →
  width im ≤ frame_width g → height im ≤ frame_height g →
  0 ≤ Z.of_nat k < column_count g * row_count g →
  0 ≤ x < width im → 0 ≤ y < height im →
  let o := cell_origin g (Z.of_nat k) in
  in_box o im (o.1 + x) (o.2 + y) ∧ in_image (blank_grid g) (o.1 + x) (o.2 + y).
Proof.
  intros Hcc Hw Hh Hcap Hx Hy o. unfold o, cell_origin, in_box, in_image.
  cbn [fst snd blank_grid new width height].
  pose proof (Z.mod_pos_bound (Z.of_nat k) (column_count g) ltac:(lia)) as Hmod.
  pose proof (Z.div_mod (Z.of_nat k) (column_count g) ltac:(lia)) as Hdm.
  assert (0 ≤ Z.of_nat k / column_count g) by (apply Z.div_pos; lia).
  assert (Z.of_nat k / column_count g < row_count g)
    by (apply Z.div_lt_upper_bound; lia).
  repeat split; try lia; nia.
Qed.

Lemma blank_grid_transparent g x y c : getband (blank_grid g) x y c = 0.
Proof.
  cbn [blank_grid new getband].
  by do 5 (destruct c as [|c]; [done|]).
Qed.

Lemma BLEND8_mask_zero_on_zero v : BLEND8 0 0 v = 0.
Proof. unfold BLEND8, DIV255. by rewrite Z.mul_0_l, Z.mul_0_r. Qed.

End ComposeFacts.

(** * The claims about the grid packer *)

Section PackerClaims.
Import Py PIL Packer Spec.
Context {F : Type} `{NumericRuntime F}.

(** Every decoded frame has the batch's mode and extent. *)
Lemma tensor_to_pil_frame (t : tensor F) im :
  im ∈ tensor_to_pil t →
  im_mode im = batch_mode t ∧
  width im = Z.of_nat (t_cols t) ∧ height im = Z.of_nat (t_rows t).
Proof.
  intros Hin.
  assert (t_chans t = 3%nat ∨ t_chans t = 4%nat) as Hc.
  { destruct (decide (t_chans t = 3%nat)); [by left|].
    destruct (decide (t_chans t = 4%nat)); [by right|].
    rewrite tensor_to_pil_unsupported in Hin by done. by apply elem_of_nil in Hin. }
  rewrite (tensor_to_pil_supported t Hc) in Hin.
  apply list_elem_of_fmap in Hin as (i & -> & _). done.
Qed.

Lemma batch_mode_cases (t : tensor F) : batch_mode t = RGB ∨ batch_mode t = RGBA.
Proof. unfold batch_mode. destruct (_ =? _)%nat; auto. Qed.

(** In a tensor batch every frame fills its cell. *)
Lemma tensor_frames_fill_cells (t : tensor F) first rest cc rc im :
  tensor_to_pil t = first :: rest → im ∈ first :: rest →
  width im = frame_width (grid_layout first rest cc rc) ∧
  height im = frame_height (grid_layout first rest cc rc).
Proof.
  intros Hd Him.
  destruct (grid_layout_frame_attained first rest cc rc)
    as [(imw & Hinw & <-) (imh & Hinh & <-)].
  rewrite <- Hd in Him, Hinw, Hinh.
  destruct (tensor_to_pil_frame t im Him) as (_ & -> & ->).
  destruct (tensor_to_pil_frame t imw Hinw) as (_ & -> & _).
  destruct (tensor_to_pil_frame t imh Hinh) as (_ & _ & ->). done.
Qed.

(** A batch of at least one three- or four-channel frame decodes to as
    many images as it has frames. *)
Lemma tensor_to_pil_cons (t : tensor F) :
  (0 < t_batch t)%nat →
  t_chans t = 3%nat ∨ t_chans t = 4%nat →
  ∃ first rest,
    tensor_to_pil t = first :: rest ∧ length (first :: rest) = t_batch t.
Proof.
  intros Hb Hc. pose proof (tensor_to_pil_length t Hc) as Hlen.
  destruct (tensor_to_pil t) as [|first rest] eqn:Hd; [simpl in Hlen; lia|].
  eauto.
Qed.

(** C1 (as amended): for every batch of at least one frame whose frames
    have three or four channels, the node returns a [frame_count] equal to
    the batch length, whatever the column and row counts are and however
    many frames fit on the grid. *)
Theorem C1_frame_count_is_batch_length (t : tensor F) (cc rc : Z) :
  (0 < t_batch t)%nat →
  t_chans t = 3%nat ∨ t_chans t = 4%nat →
  ∃ out fw fh,
    create_sprite_sheet t cc rc = Ok (out, fw, fh, Z.of_nat (t_batch t)).
Proof.
  intros Hb Hc.
  destruct (tensor_to_pil_cons t Hb Hc) as (first & rest & Hd & Hlen).
  eexists _, _, _. rewrite (create_sprite_sheet_decoded t cc rc first rest Hd).
  by rewrite grid_layout_frame_count, Hlen.
Qed.

(** C2 (as amended): the node raises [ValueError("Input images are empty.")]
    if and only if the batch has no frame or its frames are neither three-
    nor four-channel; it raises nothing else, and for every batch of at
    least one three- or four-channel frame it returns. *)
Theorem C2_raises_iff_nothing_decodable (t : tensor F) (cc rc : Z) :
  (create_sprite_sheet t cc rc = Raise (ValueError (lit "Input images are empty."))
   ↔ t_batch t = 0%nat ∨ (t_chans t ≠ 3%nat ∧ t_chans t ≠ 4%nat)) ∧
  (∀ e, create_sprite_sheet t cc rc = Raise e →
        e = ValueError (lit "Input images are empty.")) ∧
  (t_batch t ≠ 0%nat ∧ (t_chans t = 3%nat ∨ t_chans t = 4%nat) →
   ∃ r, create_sprite_sheet t cc rc = Ok r).
Proof.
  rewrite <- tensor_to_pil_nil_iff.
  split; [|split].
  - split.
    + unfold create_sprite_sheet. by destruct (tensor_to_pil t).
    + apply create_sprite_sheet_nil.
  - unfold create_sprite_sheet. destruct (tensor_to_pil t); [|done].
    by intros e [= <-].
  - intros [Hb Hc].
    destruct (tensor_to_pil_cons t ltac:(lia) Hc) as (first & rest & Hd & _).
    rewrite (create_sprite_sheet_decoded t cc rc first rest Hd). eauto.
Qed.

(** C3: when the decoded batch is non-empty, [column_count >= 1] and the
    supplied [row_count <= 0], the node returns, and the row count it uses
    is [ceil(frame_count / column_count)]: the least [r] with
    [frame_count <= column_count * r].  In particular
    [column_count * row_count >= frame_count]; the composite's height is
    [frame_height] times this row count. *)
Theorem C3_auto_row_count (t : tensor F) (cc rc : Z) first rest :
  tensor_to_pil t = first :: rest →
  1 ≤ cc → rc ≤ 0 →
  let g := grid_layout first rest cc rc in
  create_sprite_sheet t cc rc =
    Ok (to_tensor (compose g (first :: rest)),
        frame_width g, frame_height g, frame_count g) ∧
  frame_count g = Z.of_nat (t_batch t) ∧
  column_count g = cc ∧
  row_count g = (frame_count g + cc - 1) / cc ∧
  (row_count g - 1) * cc < frame_count g ∧
  cc * row_count g >= frame_count g ∧
  height (compose g (first :: rest)) = frame_height g * row_count g.
Proof.
  intros Hd Hcc Hrc g.
  assert (column_count g = cc) as Hcol.
  { unfold g. cbn [grid_layout column_count]. destruct (Z.leb_spec cc 0); lia. }
  assert (row_count g = (frame_count g + cc - 1) / cc) as Hrow.
  { unfold g. cbn [grid_layout row_count frame_count].
    destruct (Z.leb_spec rc 0); [|lia]. destruct (Z.leb_spec cc 0); [lia|done]. }
  pose proof (ceil_div_spec (frame_count g) cc Hcc) as Hceil. cbv zeta in Hceil.
  rewrite <- Hrow in Hceil.
  split; [by apply create_sprite_sheet_decoded|].
  split.
  { unfold g. rewrite grid_layout_frame_count, <- Hd. f_equal.
    apply tensor_to_pil_length.
    destruct (decide (t_chans t = 3%nat)); [by left|].
    destruct (decide (t_chans t = 4%nat)); [by right|].
    by rewrite tensor_to_pil_unsupported in Hd. }
  repeat split; [done|done|lia|lia|].
  unfold compose.
  destruct (paste_frames_shape g 0 (first :: rest) (blank_grid g)) as (_ & _ & ->).
  done.
Qed.

(** C4: when the decoded batch is non-empty, the canvas the node allocates
    is an RGBA image of width [frame_width * column_count] and height
    [frame_height * row_count], every band of every pixel of it is zero,
    [frame_width] and [frame_height] are the maxima of the frames' widths
    and heights, and the composite the node returns keeps that size. *)
Theorem C4_canvas_allocation (t : tensor F) (cc rc : Z) first rest :
  tensor_to_pil t = first :: rest →
  let g := grid_layout first rest cc rc in
  let pil_images := first :: rest in
  create_sprite_sheet t cc rc =
    Ok (to_tensor (compose g pil_images),
        frame_width g, frame_height g, frame_count g) ∧
  compose g pil_images = paste_frames g 0 pil_images (blank_grid g) ∧
  im_mode (blank_grid g) = RGBA ∧
  width (blank_grid g) = frame_width g * column_count g ∧
  height (blank_grid g) = frame_height g * row_count g ∧
  (∀ x y c, getband (blank_grid g) x y c = 0) ∧
  (∀ im, im ∈ pil_images →
         width im ≤ frame_width g ∧ height im ≤ frame_height g) ∧
  (∃ im, im ∈ pil_images ∧ width im = frame_width g) ∧
  (∃ im, im ∈ pil_images ∧ height im = frame_height g) ∧
  column_count g = (if cc <=? 0 then 1 else cc) ∧
  row_count g =
    (if rc <=? 0 then (frame_count g + column_count g - 1) / column_count g
     else rc) ∧
  same_shape (compose g pil_images) (blank_grid g).
Proof.
  intros Hd g pil_images.
  split; [by apply create_sprite_sheet_decoded|].
  split; [done|]. split; [done|]. split; [done|]. split; [done|].
  split; [apply blank_grid_transparent|].
  split; [intros im Him; by apply grid_layout_frame_bounds|].
  split; [apply grid_layout_frame_attained|].
  split; [apply grid_layout_frame_attained|].
  split; [done|]. split; [done|].
  apply paste_frames_shape.
Qed.

(** C5: when the decoded batch is non-empty the node returns whatever the
    capacity [column_count * row_count] is; the composite is the blank
    canvas with the frames of index below the capacity blitted in input
    order, frame [i] at origin
    [((i mod column_count) * frame_width, (i div column_count) * frame_height)];
    the frames from the capacity on leave no trace in it; and inside the
    extent of a placed frame the composite shows that frame pasted onto
    the blank canvas at its origin. *)
Theorem C5_row_major_placement (t : tensor F) (cc rc : Z) first rest :
  tensor_to_pil t = first :: rest →
  let g := grid_layout first rest cc rc in
  let pil_images := first :: rest in
  let capacity := column_count g * row_count g in
  create_sprite_sheet t cc rc =
    Ok (to_tensor (compose g pil_images),
        frame_width g, frame_height g, frame_count g) ∧
  compose g pil_images =
    blit_from g 0 (take (Z.to_nat capacity) pil_images) (blank_grid g) ∧
  compose g pil_images = compose g (take (Z.to_nat capacity) pil_images) ∧
  (∀ (i : nat) im, pil_images !! i = Some im → Z.of_nat i < capacity →
     let origin := ((Z.of_nat i mod column_count g) * frame_width g,
                    (Z.of_nat i / column_count g) * frame_height g) in
     ∀ x y c, 0 ≤ x < width im → 0 ≤ y < height im →
       in_image (compose g pil_images) (origin.1 + x) (origin.2 + y) ∧
       getband (compose g pil_images) (origin.1 + x) (origin.2 + y) c =
       getband (paste (blank_grid g) im origin (paste_mask im))
               (origin.1 + x) (origin.2 + y) c).
Proof.
  intros Hd g pil_images capacity.
  split; [by apply create_sprite_sheet_decoded|].
  split.
  { unfold compose. by rewrite paste_frames_take, Z.sub_0_r. }
  split; [apply compose_take|].
  intros i im Hi Hcap origin x y c Hx Hy.
  pose proof (grid_layout_column_count first rest cc rc) as [_ Hcc].
  pose proof (grid_layout_frame_bounds first rest cc rc) as Hfit.
  destruct (Hfit im (list_elem_of_lookup_2 _ _ _ Hi)) as [Hw Hh].
  split.
  - destruct (placed_frame_in_canvas g i im x y Hcc Hw Hh ltac:(lia) Hx Hy)
      as [_ Hin].
    destruct (paste_frames_shape g 0 pil_images (blank_grid g)) as (_ & Hcw & Hch).
    unfold in_image, compose. rewrite Hcw, Hch. exact Hin.
  - exact (compose_pixel g pil_images i im x y c Hcc Hfit Hi Hcap Hx Hy).
Qed.

(** C8: when the decoded batch is non-empty the node returns the
    composite, and every placed frame of the batch fills its cell.  A frame
    with an alpha band is pasted with that band as mask: each band of the
    composite in its cell is the blend of the transparent background with
    the frame by the frame's alpha, so where the alpha is zero the
    composite still shows the background, zero in every band.  A frame
    without an alpha band is pasted with no mask: over its whole cell the
    composite shows the frame's colour, fully opaque. *)
Theorem C8_alpha_mask (t : tensor F) (cc rc : Z) first rest :
  tensor_to_pil t = first :: rest →
  let g := grid_layout first rest cc rc in
  let pil_images := first :: rest in
  create_sprite_sheet t cc rc =
    Ok (to_tensor (compose g pil_images),
        frame_width g, frame_height g, frame_count g) ∧
  ∀ (i : nat) im,
    pil_images !! i = Some im →
    Z.of_nat i < column_count g * row_count g →
    let o := cell_origin g (Z.of_nat i) in
    (width im = frame_width g ∧ height im = frame_height g) ∧
    (im_mode im = RGBA →
       paste_mask im = Some (split_band im 3) ∧
       ∀ x y, 0 ≤ x < frame_width g → 0 ≤ y < frame_height g →
         (∀ c, getband (compose g pil_images) (o.1 + x) (o.2 + y) c =
               BLEND8 (getband im x y 3) 0 (getband im x y c)) ∧
         (getband im x y 3 = 0 →
          ∀ c, getband (compose g pil_images) (o.1 + x) (o.2 + y) c =
               getband (blank_grid g) (o.1 + x) (o.2 + y) c ∧
               getband (compose g pil_images) (o.1 + x) (o.2 + y) c = 0)) ∧
    (im_mode im = RGB →
       paste_mask im = None ∧
       ∀ x y c, 0 ≤ x < frame_width g → 0 ≤ y < frame_height g →
         getband (compose g pil_images) (o.1 + x) (o.2 + y) c =
         if (c <? 3)%nat then getband im x y c else 255).
Proof.
  intros Hd g pil_images.
  split; [by apply create_sprite_sheet_decoded|].
  intros i im Hi Hcap o.
  pose proof (grid_layout_column_count first rest cc rc) as [_ Hcc].
  pose proof (grid_layout_frame_bounds first rest cc rc) as Hfit.
  pose proof (list_elem_of_lookup_2 _ _ _ Hi) as Him.
  destruct (tensor_frames_fill_cells t first rest cc rc im Hd Him) as [Hw Hh].
  fold g in Hw, Hh, Hcc, Hfit.
  assert (∀ x y c, 0 ≤ x < frame_width g → 0 ≤ y < frame_height g →
            getband (compose g pil_images) (o.1 + x) (o.2 + y) c =
            let src := if decide (RGBA = im_mode im) then im
                       else convert im RGBA in
            match paste_mask im with
            | None => getband src x y c
            | Some mk => BLEND8 (getband mk x y 0) 0 (getband src x y c)
            end) as Hpx.
  { intros x y c Hx Hy. rewrite <- Hw in Hx. rewrite <- Hh in Hy.
    unfold o.
    rewrite (compose_pixel g pil_images i im x y c Hcc Hfit Hi Hcap Hx Hy).
    destruct (placed_frame_in_canvas g i im x y Hcc ltac:(lia) ltac:(lia)
                ltac:(lia) Hx Hy) as [Hbox Hcanvas].
    rewrite (paste_getband_inside _ _ _ _ _ _ _ Hbox Hcanvas).
    cbv zeta. rewrite blank_grid_transparent.
    rewrite !Z.add_simpl_l. done. }
  split; [done|]. split.
  - intros Hmode. unfold paste_mask in *. rewrite decide_True in * by done.
    split; [done|]. intros x y Hx Hy.
    assert (∀ c, getband (compose g pil_images) (o.1 + x) (o.2 + y) c =
                 BLEND8 (getband im x y 3) 0 (getband im x y c)) as Hblend.
    { intros c. rewrite (Hpx x y c Hx Hy). cbv zeta.
      by rewrite decide_True by done. }
    split; [done|]. intros Halpha c.
    rewrite blank_grid_transparent, Hblend, Halpha.
    by rewrite BLEND8_mask_zero_on_zero.
  - intros Hmode. unfold paste_mask in *.
    rewrite decide_False in * by (rewrite Hmode; done).
    split; [done|]. intros x y c Hx Hy.
    rewrite (Hpx x y c Hx Hy). cbv zeta.
    rewrite decide_False by (rewrite Hmode; done).
    cbn [convert getband]. by rewrite Hmode.
Qed.

(** C9: whenever the node returns, the composite batch has a leading
    dimension of one and exactly four channels, whatever the channel count
    of the input frames was; its rows and columns are the canvas size. *)
Theorem C9_output_is_single_rgba (t : tensor F) (cc rc : Z) out fw fh fc :
  create_sprite_sheet t cc rc = Ok (out, fw, fh, fc) →
  t_batch out = 1%nat ∧ t_chans out = 4%nat ∧
  ∃ first rest,
    tensor_to_pil t = first :: rest ∧
    let g := grid_layout first rest cc rc in
    t_rows out = Z.to_nat (frame_height g * row_count g) ∧
    t_cols out = Z.to_nat (frame_width g * column_count g).
Proof.
  unfold create_sprite_sheet.
  destruct (tensor_to_pil t) as [|first rest] eqn:Hd; [done|].
  intros [= <- <- <- <-].
  destruct (paste_frames_shape (grid_layout first rest cc rc) 0 (first :: rest)
              (blank_grid (grid_layout first rest cc rc))) as (Hm & Hw & Hh).
  cbn [to_tensor t_batch t_chans t_rows t_cols asarray nd_chans nd_rows nd_cols].
  unfold compose. rewrite Hm, Hw, Hh.
  split; [done|]. split; [done|]. by exists first, rest.
Qed.

End PackerClaims.

(** ** The packer on the sample batches *)

Section PackerRuns.
Import Py PIL Packer Spec Samples.

(** The end-to-end example: four opaque 64 x 64 frames in two columns give
    a 128 x 128 composite of four channels, two rows, and the origins
    (0,0), (64,0), (0,64), (64,64). *)
Example four_frames_two_columns :
  (match create_sprite_sheet opaque_64 2 0 with
   | Ok (out, fw, fh, fc) =>
       Some (t_batch out, t_rows out, t_cols out, t_chans out, fw, fh, fc)
   | Raise _ => None
   end) = Some (1%nat, 128%nat, 128%nat, 4%nat, 64, 64, 4) ∧
  (let g := grid_layout (decoded_head opaque_64 RGB) (decoded_tail opaque_64 RGB) 2 0 in
   row_count g = 2 ∧
   cell_origin g <$> [0; 1; 2; 3] = [(0, 0); (64, 0); (0, 64); (64, 64)]).
Proof. split; [|split]; vm_compute; reflexivity. Qed.

(** Capacity truncation: ten frames on a 3 x 3 grid are reported as ten,
    on a canvas of three rows and three columns of cells. *)
Example ten_frames_capacity_nine :
  (match create_sprite_sheet (opaque_batch 10) 3 3 with
   | Ok (out, fw, fh, fc) => Some (t_rows out, t_cols out, fw, fh, fc)
   | Raise _ => None
   end) = Some (6%nat, 6%nat, 2, 2, 10).
Proof. vm_compute. reflexivity. Qed.

(** The first frame of the alpha sample is transparent at its first pixel
    and opaque at the next; the composite keeps the background at the one
    and shows the frame at the other. *)
Example alpha_sample_pixels :
  (let pil_images := decoded_head alpha_batch RGBA :: decoded_tail alpha_batch RGBA in
   let g := grid_layout (decoded_head alpha_batch RGBA)
              (decoded_tail alpha_batch RGBA) 2 0 in
   (getband (compose g pil_images) 0 0 <$> [0; 1; 2; 3]%nat,
    getband (compose g pil_images) 1 0 <$> [0; 1; 2; 3]%nat)) =
  ([0; 0; 0; 0], [255; 255; 255; 255]).
Proof. vm_compute. reflexivity. Qed.

(** The empty batch is rejected. *)
Example empty_batch_raises :
  create_sprite_sheet empty_batch 8 0 =
  Raise (ValueError (lit "Input images are empty.")).
Proof. reflexivity. Qed.

(** C1, a failing input of the claim as stated: a batch of one
    single-channel frame is not empty, yet the node returns no
    [frame_count] for it. *)
Lemma C1_counterexample :
  (0 < t_batch grey_batch)%nat ∧
  ¬ ∃ out fw fh,
      create_sprite_sheet grey_batch 8 0 =
        Ok (out, fw, fh, Z.of_nat (t_batch grey_batch)).
Proof.
  split; [simpl; lia|].
  intros (out & fw & fh & Heq). vm_compute in Heq. discriminate Heq.
Qed.

Lemma C1_witness :
  (0 < t_batch (opaque_batch 10))%nat ∧
  (t_chans (opaque_batch 10) = 3%nat ∨ t_chans (opaque_batch 10) = 4%nat) ∧
  ∃ out fw fh, create_sprite_sheet (opaque_batch 10) 3 3 = Ok (out, fw, fh, 10).
Proof.
  split; [simpl; lia|]. split; [left; reflexivity|].
  apply (C1_frame_count_is_batch_length (opaque_batch 10) 3 3);
    [simpl; lia | left; reflexivity].
Defined.

(** C2, a failing input of the claim as stated: the batch of one
    single-channel frame is not empty, yet the node raises; and the message
    it raises with is not the one the claim quotes. *)
Lemma C2_counterexample :
  t_batch grey_batch ≠ 0%nat ∧
  ∃ msg,
    create_sprite_sheet grey_batch 8 0 = Raise (ValueError msg) ∧
    msg = lit "Input images are empty." ∧
    msg ≠ lit "no images provided".
Proof.
  split; [simpl; lia|].
  exists (lit "Input images are empty."). split; [reflexivity|].
  split; [reflexivity|]. vm_compute. discriminate.
Qed.

Lemma C3_witness :
  tensor_to_pil (opaque_batch 10) =
    decoded_head (opaque_batch 10) RGB :: decoded_tail (opaque_batch 10) RGB ∧
  1 ≤ 3 ∧ 0 ≤ 0 ∧
  let g := grid_layout (decoded_head (opaque_batch 10) RGB)
             (decoded_tail (opaque_batch 10) RGB) 3 0 in
  row_count g = 4 ∧ 3 * row_count g >= frame_count g.
Proof.
  split; [reflexivity|]. split; [lia|]. split; [lia|].
  pose proof (C3_auto_row_count (opaque_batch 10) 3 0 _ _ eq_refl
                ltac:(lia) ltac:(lia)) as Hw.
  cbv zeta in Hw. destruct Hw as (_ & _ & _ & Hrow & _ & Hcap & _).
  split; [reflexivity | exact Hcap].
Defined.

Lemma C4_witness :
  tensor_to_pil (opaque_batch 4) =
    decoded_head (opaque_batch 4) RGB :: decoded_tail (opaque_batch 4) RGB ∧
  let g := grid_layout (decoded_head (opaque_batch 4) RGB)
             (decoded_tail (opaque_batch 4) RGB) 2 0 in
  width (blank_grid g) = 4 ∧ height (blank_grid g) = 4 ∧
  ∀ x y c, getband (blank_grid g) x y c = 0.
Proof.
  split; [reflexivity|].
  pose proof (C4_canvas_allocation (opaque_batch 4) 2 0 _ _ eq_refl) as Hw.
  cbv zeta in Hw. destruct Hw as (_ & _ & _ & Hwd & Hht & Hzero & _).
  split; [exact Hwd|]. split; [exact Hht | exact Hzero].
Defined.

Lemma C5_witness :
  tensor_to_pil (opaque_batch 10) =
    decoded_head (opaque_batch 10) RGB :: decoded_tail (opaque_batch 10) RGB ∧
  let pil_images :=
    decoded_head (opaque_batch 10) RGB :: decoded_tail (opaque_batch 10) RGB in
  let g := grid_layout (decoded_head (opaque_batch 10) RGB)
             (decoded_tail (opaque_batch 10) RGB) 3 3 in
  (∃ out, create_sprite_sheet (opaque_batch 10) 3 3 = Ok (out, 2, 2, 10)) ∧
  compose g pil_images = compose g (take 9 pil_images).
Proof.
  split; [reflexivity|].
  pose proof (C5_row_major_placement (opaque_batch 10) 3 3 _ _ eq_refl) as Hw.
  cbv zeta in Hw. destruct Hw as (Hret & _ & Htake & _).
  split; [eexists; exact Hret | exact Htake].
Defined.

Lemma C8_witness :
  tensor_to_pil alpha_batch =
    decoded_head alpha_batch RGBA :: decoded_tail alpha_batch RGBA ∧
  let pil_images := decoded_head alpha_batch RGBA :: decoded_tail alpha_batch RGBA in
  let g := grid_layout (decoded_head alpha_batch RGBA)
             (decoded_tail alpha_batch RGBA) 2 0 in
  pil_images !! 0%nat = Some (decoded_head alpha_batch RGBA) ∧
  0 < column_count g * row_count g ∧
  ∀ c, getband (compose g pil_images) 0 0 c = 0.
Proof.
  split; [reflexivity|]. split; [reflexivity|]. split; [reflexivity|].
  pose proof (C8_alpha_mask alpha_batch 2 0 _ _ eq_refl) as Hw.
  cbv zeta in Hw. destruct Hw as [_ Hall].
  destruct (Hall 0%nat _ eq_refl eq_refl) as (_ & Hrgba & _).
  destruct (Hrgba eq_refl) as [_ Hpx].
  destruct (Hpx 0 0 ltac:(vm_compute; split; [discriminate | reflexivity])
              ltac:(vm_compute; split; [discriminate | reflexivity])) as [_ Hzero].
  intros c. exact (proj2 (Hzero eq_refl c)).
Defined.

Lemma C9_witness :
  t_chans (opaque_batch 4) = 3%nat ∧
  ∃ out,
    create_sprite_sheet (opaque_batch 4) 2 0 = Ok (out, 2, 2, 4) ∧
    t_batch out = 1%nat ∧ t_chans out = 4%nat.
Proof.
  split; [reflexivity|]. eexists. split; [reflexivity|].
  pose proof (C9_output_is_single_rgba (opaque_batch 4) 2 0 _ _ _ _ eq_refl) as Hw.
  destruct Hw as (Hb & Hc & _). split; [exact Hb | exact Hc].
Defined.

End PackerRuns.

(** * Properties of the resource writer *)

(** ** Decimal formatting *)

Section FormatFacts.
Import Py.

Lemma digit_codes_inj d d' : digit_codes d = digit_codes d' → d = d'.
Proof.
  revert d'. induction d; destruct d'; simpl; intros Heq;
    try discriminate; try reflexivity;
    injection Heq as Heq; f_equal; by apply IHd.
Qed.

Lemma digit_codes_iter_D0 k d :
  digit_codes (Nat.iter k Decimal.D0 d) = replicate k 48%N ++ digit_codes d.
Proof. induction k as [|k IH]; simpl; [done|]. by rewrite IH. Qed.

Lemma of_uint_iter_D0_head k d :
  Z.of_uint (Nat.iter k Decimal.D0 d) = Z.of_uint d.
Proof. induction k as [|k IH]; simpl; [done|]. exact IH. Qed.

Lemma to_int_nonneg z : 0 ≤ z → ∃ d, Z.to_int z = Decimal.Pos d ∧ Z.of_uint d = z.
Proof.
  intros Hz. pose proof (DecimalZ.of_to z) as Hof.
  destruct z as [|p|p]; [| |lia]; simpl in *; eauto.
Qed.

(** Zero-padded fields of two different non-negative numbers differ. *)
Lemma format_zero_padded_inj i j width :
  0 ≤ i → 0 ≤ j →
  format_zero_padded i width = format_zero_padded j width → i = j.
Proof.
  intros Hi Hj. unfold format_zero_padded, zero_fill.
  destruct (to_int_nonneg i Hi) as (d & -> & <-).
  destruct (to_int_nonneg j Hj) as (d' & -> & <-).
  rewrite <- !digit_codes_iter_D0. intros Heq%digit_codes_inj.
  rewrite <- (of_uint_iter_D0_head (width - length (digit_codes d)) d).
  rewrite <- (of_uint_iter_D0_head (width - length (digit_codes d')) d').
  by rewrite Heq.
Qed.

End FormatFacts.

(** ** The file-name scan *)

Section NameScanFacts.
Import Py Tres.
Variable path_exists : str → bool.
Variables target_dir filename_prefix : str.
Variable number_padding : nat.

Local Abbreviation path_at := (tres_path_at target_dir filename_prefix number_padding).
Local Abbreviation name_at := (base_name_at filename_prefix number_padding).
Local Abbreviation scan :=
  (scan_names path_exists target_dir filename_prefix number_padding).

Lemma base_name_at_inj i j : 0 ≤ i → 0 ≤ j → name_at i = name_at j → i = j.
Proof.
  intros Hi Hj. unfold base_name_at.
  intros Heq%app_inv_head%app_inv_head.
  by apply (format_zero_padded_inj i j number_padding).
Qed.

(** Whether the file name is absolute does not depend on the index. *)
Lemma tres_filename_starts_with_sep i j :
  starts_with_sep (name_at i ++ lit ".tres") =
  starts_with_sep (name_at j ++ lit ".tres").
Proof. unfold base_name_at. by destruct filename_prefix. Qed.

(** Two different indices name two different paths. *)
Lemma tres_path_at_inj i j : 0 ≤ i → 0 ≤ j → path_at i = path_at j → i = j.
Proof.
  intros Hi Hj. unfold tres_path_at, os_path_join. cbv zeta.
  rewrite (tres_filename_starts_with_sep i j).
  intros Heq. apply (base_name_at_inj i j Hi Hj).
  apply (app_inv_tail (lit ".tres")).
  destruct (starts_with_sep _); [done|].
  destruct (_ || _).
  - by apply app_inv_head in Heq.
  - by apply app_inv_head, app_inv_head in Heq.
Qed.

(** The scan stops at a free index once every index before it is taken
    and the fuel covers the iterations. *)
Lemma scan_names_stops fuel i k :
  i ≤ k →
  (∀ j, i ≤ j < k → path_exists (path_at j) = true) →
  path_exists (path_at k) = false →
  (Z.to_nat (k - i) < fuel)%nat →
  scan fuel i = Some (k, name_at k, path_at k).
Proof.
  revert i. induction fuel as [|fuel IH]; intros i Hik Htaken Hfree Hfuel; [lia|].
  cbn [scan_names]. destruct (decide (i = k)) as [->|Hne].
  - by rewrite Hfree.
  - rewrite (Htaken i) by lia. cbn [negb].
    apply IH; [lia| |done|lia]. intros j Hj. apply Htaken. lia.
Qed.

(** Whatever the scan returns is free, and everything it passed is taken. *)
Lemma scan_names_sound fuel i k name path :
  scan fuel i = Some (k, name, path) →
  i ≤ k ∧ name = name_at k ∧ path = path_at k ∧
  path_exists (path_at k) = false ∧
  ∀ j, i ≤ j < k → path_exists (path_at j) = true.
Proof.
  revert i. induction fuel as [|fuel IH]; intros i; [done|].
  cbn [scan_names]. destruct (path_exists (path_at i)) eqn:Hex; cbn [negb].
  - intros Hscan. destruct (IH (i + 1) Hscan) as (Hle & -> & -> & Hfree & Htaken).
    repeat split; [lia|done|]. intros j Hj.
    destruct (decide (j = i)) as [->|]; [done|]. apply Htaken. lia.
  - intros [= <- <- <-]. repeat split; [lia|done|]. intros j Hj. lia.
Qed.

(** Among the indices from [i] on, a free one gives a least free one. *)
Lemma least_free_index n i :
  (∃ k, i ≤ k < i + Z.of_nat n ∧ path_exists (path_at k) = false) →
  ∃ k, i ≤ k < i + Z.of_nat n ∧ path_exists (path_at k) = false ∧
       ∀ j, i ≤ j < k → path_exists (path_at j) = true.
Proof.
  revert i. induction n as [|n IH]; intros i (k & Hk & Hfree); [lia|].
  destruct (path_exists (path_at i)) eqn:Hex.
  - destruct (IH (i + 1)) as (k' & Hk' & Hfree' & Htaken').
    + exists k. split; [|done].
      destruct (decide (k = i)) as [->|]; [congruence|lia].
    + exists k'. split; [lia|]. split; [done|]. intros j Hj.
      destruct (decide (j = i)) as [->|]; [done|]. apply Htaken'. lia.
  - exists i. split; [lia|]. split; [done|]. intros j Hj. lia.
Qed.

End NameScanFacts.

Section FiniteFacts.

Lemma foldr_max_ge (l : list Z) x : x ∈ l → x ≤ foldr Z.max 0 l.
Proof.
  induction l as [|a l IH]; simpl; intros Hin.
  - by apply elem_of_nil in Hin.
  - apply elem_of_cons in Hin as [-> | Hin]; [lia|]. specialize (IH Hin). lia.
Qed.

Lemma foldr_max_nonneg (l : list Z) : 0 ≤ foldr Z.max 0 l.
Proof. induction l as [|a l IH]; simpl; lia. Qed.

End FiniteFacts.

(** ** The generated document *)

Section DocumentFacts.
Import Py Tres Spec.

Local Arguments lit : simpl never.
Local Arguments str_of_int : simpl never.

Lemma sub_resources_loop_blocks id fw fh cc indices acc :
  cc ≠ 0 →
  sub_resources_loop id fw fh cc indices acc =
  Ok (acc ++ concat (frame_block id fw fh cc <$> indices)).
Proof.
  intros Hcc. revert acc. induction indices as [|i l IH]; intros acc.
  - simpl. by rewrite app_nil_r.
  - cbn [sub_resources_loop]. unfold divmod.
    destruct (Z.eqb_spec cc 0) as [|_]; [done|].
    rewrite IH. f_equal. cbn [fmap list_fmap concat].
    unfold frame_block, sub_resource_block. by rewrite <- !app_assoc.
Qed.

Lemma range_length n : length (range n) = Z.to_nat n.
Proof. unfold range. by rewrite length_fmap, length_seq. Qed.

Lemma range_lookup n i : 0 ≤ i < n → range n !! Z.to_nat i = Some i.
Proof.
  intros Hi. unfold range. rewrite list_lookup_fmap.
  rewrite lookup_seq_lt by lia. simpl. f_equal. lia.
Qed.

(** The document the generator builds, when the column count is not zero. *)
Lemma generate_document image_filename fw fh fc cc w :
  cc ≠ 0 →
  let id := lit "1_" ++ hex (entropy_at w (cursor w) 5) in
  generate_godot_tres_content image_filename fw fh fc cc w =
  (advance 29 w,
   Ok (gd_resource_line (fc + 2) (hex (entropy_at w (cursor w + 5) 12)) ++
       ext_resource_line (hex (entropy_at w (cursor w + 17) 12)) image_filename id ++
       concat (frame_block id fw fh cc <$> range fc) ++
       resource_block fc)).
Proof.
  intros Hcc id. unfold generate_godot_tres_content.
  unfold mbind, M_bind, mret, M_ret, os_urandom, lift. cbn [cursor entropy fs base_path].
  rewrite sub_resources_loop_blocks by done. cbn [app].
  unfold advance, gd_resource_line, ext_resource_line, resource_block, entropy_at, id.
  f_equal; [f_equal; lia|]. f_equal.
  replace (cursor w + 5 + 12)%nat with (cursor w + 17)%nat by lia.
  by rewrite <- !app_assoc.
Qed.

End DocumentFacts.

(** ** The file system *)

Section FileSystemFacts.
Import Py Tres.

Lemma os_path_exists_false w p : os_path_exists w p = false ↔ fs w !! p = None.
Proof.
  unfold os_path_exists. rewrite bool_decide_eq_false.
  by rewrite eq_None_not_Some.
Qed.

Lemma os_path_exists_true w p : os_path_exists w p = true ↔ is_Some (fs w !! p).
Proof. unfold os_path_exists. by rewrite bool_decide_eq_true. Qed.

(** A finite file system cannot hold all of [size + 1] distinct paths. *)
Lemma free_index_exists (m : gmap str node) (path_at : Z → str) :
  (∀ i j, 0 ≤ i → 0 ≤ j → path_at i = path_at j → i = j) →
  ∃ k, 1 ≤ k < 1 + Z.of_nat (S (size m)) ∧ m !! path_at k = None.
Proof.
  intros Hinj.
  set (ks := Z.of_nat <$> seq 1 (S (size m))).
  assert (∀ k, k ∈ ks ↔ 1 ≤ k < 1 + Z.of_nat (S (size m))) as Hks.
  { intros k. unfold ks. rewrite list_elem_of_fmap. split.
    - intros (n & -> & Hn%elem_of_seq). lia.
    - intros Hk. exists (Z.to_nat k). split; [lia|]. apply elem_of_seq. lia. }
  destruct (decide (Forall (λ k, is_Some (m !! path_at k)) ks)) as [Hall|Hex].
  - exfalso.
    assert (NoDup (path_at <$> ks)) as Hnd.
    { apply NoDup_fmap_2_strong.
      - intros i j Hi%Hks Hj%Hks Heq. apply Hinj; [lia|lia|done].
      - unfold ks. apply NoDup_fmap_2; [|apply NoDup_seq].
        intros a b Hab. lia. }
    assert (list_to_set (path_at <$> ks) ⊆ dom m) as Hsub.
    { intros p Hp%elem_of_list_to_set%list_elem_of_fmap.
      destruct Hp as (k & -> & Hk). apply elem_of_dom.
      by apply (proj1 (Forall_forall _ _) Hall). }
    apply subseteq_size in Hsub.
    rewrite size_list_to_set, length_fmap, size_dom in Hsub by done.
    unfold ks in Hsub. rewrite length_fmap, length_seq in Hsub. lia.
  - apply not_Forall_Exists in Hex; [|intros k; apply _].
    apply Exists_exists in Hex as (k & Hk & Hnone).
    exists k. split; [by apply Hks|]. by apply eq_None_not_Some.
Qed.

End FileSystemFacts.

(** ** [create_tres_file], step by step *)

Section WriterFacts.
Import Py Tres Spec.

Lemma prepared_base_path dir w : base_path (prepared dir w) = base_path w.
Proof. unfold prepared, os_makedirs. cbn [fst]. by destruct (fs w !! _). Qed.

Lemma prepared_target_exists dir w :
  is_Some (fs (prepared dir w) !! resolve_target_dir dir w).
Proof.
  unfold prepared, os_makedirs. cbn [fst].
  destruct (fs w !! resolve_target_dir dir w) eqn:Hl.
  - by rewrite Hl.
  - cbn [fs]. by rewrite lookup_insert_eq.
Qed.

(** Creating the directory keeps every entry that was there. *)
Lemma prepared_keeps dir w p :
  is_Some (fs w !! p) → fs (prepared dir w) !! p = fs w !! p.
Proof.
  intros Hp. unfold prepared, os_makedirs. cbn [fst].
  destruct (fs w !! resolve_target_dir dir w) eqn:Hl; [done|].
  cbn [fs]. apply lookup_insert_ne. intros Heq. rewrite <- Heq, Hl in Hp.
  by destruct Hp.
Qed.

(** Creating a directory that exists changes nothing. *)
Lemma prepared_idle dir w :
  is_Some (fs w !! resolve_target_dir dir w) → prepared dir w = w.
Proof.
  intros [nd Hl]. unfold prepared, os_makedirs. cbn [fst]. by rewrite Hl.
Qed.

(** The node's result once the scan's outcome is known. *)
Lemma create_tres_file_scanned fuel fw fh fc cc prefix dir pad w k name path :
  cc ≠ 0 →
  scan_names (os_path_exists (prepared dir w)) (resolve_target_dir dir w)
    prefix pad fuel 1 = Some (k, name, path) →
  create_tres_file fuel fw fh fc cc prefix dir pad w =
  Some (written path (document (name ++ lit ".png") fw fh fc cc (prepared dir w))
          (prepared dir w),
        Ok path).
Proof.
  intros Hcc Hscan. unfold create_tres_file. cbv zeta.
  fold (prepared dir w).
  change (os_makedirs (resolve_target_dir dir w) w)
    with (prepared dir w, @Ok unit ()).
  cbv iota beta. rewrite Hscan.
  unfold mbind, M_bind. rewrite generate_document by done.
  done.
Qed.

Lemma create_tres_file_out_of_fuel fuel fw fh fc cc prefix dir pad w :
  scan_names (os_path_exists (prepared dir w)) (resolve_target_dir dir w)
    prefix pad fuel 1 = None →
  create_tres_file fuel fw fh fc cc prefix dir pad w = None.
Proof.
  intros Hscan. unfold create_tres_file. cbv zeta.
  change (os_makedirs (resolve_target_dir dir w) w)
    with (prepared dir w, @Ok unit ()).
  cbv iota beta. by rewrite Hscan.
Qed.

(** In every world some index names a path that does not exist yet, and
    so there is a least one. *)
Lemma least_free_path dir prefix pad w :
  ∃ k, 1 ≤ k ∧
    os_path_exists (prepared dir w)
      (tres_path_at (resolve_target_dir dir w) prefix pad k) = false ∧
    ∀ j, 1 ≤ j < k →
      os_path_exists (prepared dir w)
        (tres_path_at (resolve_target_dir dir w) prefix pad j) = true.
Proof.
  destruct (free_index_exists (fs (prepared dir w))
              (tres_path_at (resolve_target_dir dir w) prefix pad))
    as (k0 & Hk0 & Hnone).
  { intros i j. apply tres_path_at_inj. }
  destruct (least_free_index (os_path_exists (prepared dir w))
              (resolve_target_dir dir w) prefix pad
              (S (size (fs (prepared dir w)))) 1) as (k & Hk & Hfree & Htaken).
  { exists k0. split; [lia|]. by apply os_path_exists_false. }
  exists k. split; [lia|]. done.
Qed.

End WriterFacts.

(** * The claims about the resource writer *)

Section WriterClaims.
Import Py Tres Spec.

Lemma resolve_target_dir_base dir w w' :
  base_path w' = base_path w →
  resolve_target_dir dir w' = resolve_target_dir dir w.
Proof. intros Hb. unfold resolve_target_dir. by rewrite Hb. Qed.

(** C6: when the column count is not zero the node writes its file (given
    fuel for the name scan), and the text of that file is the header line,
    the external reference, then the sub-resource blocks and the resource
    block, where there are [frame_count] blocks and block [i] (counted from
    zero, in emission order) is sub-resource [i + 1] declaring
    [Rect2((i mod column_count) * frame_width,
           (i div column_count) * frame_height, frame_width, frame_height)];
    its origin is the cell origin the grid packer uses for frame [i] under
    the same column count and frame size. *)
Theorem C6_region_formula (fw fh fc cc : Z) (prefix dir : str) (pad : nat)
    (w : world) :
  cc ≠ 0 →
  (∃ k, 1 ≤ k ∧ ∀ fuel, (Z.to_nat k ≤ fuel)%nat →
     ∃ w' path image_filename id uid1 uid2 blocks,
       create_tres_file fuel fw fh fc cc prefix dir pad w = Some (w', Ok path) ∧
       fs w' !! path =
         Some (File (gd_resource_line (fc + 2) uid1 ++
                     ext_resource_line uid2 image_filename id ++
                     concat blocks ++ resource_block fc)) ∧
       length blocks = Z.to_nat fc ∧
       ∀ i, 0 ≤ i < fc →
         blocks !! Z.to_nat i =
         Some (sub_resource_block id (i + 1)
                 ((i mod cc) * fw) ((i / cc) * fh) fw fh)) ∧
  (∀ (g : Packer.layout) i,
     Packer.column_count g = cc →
     Packer.frame_width g = fw → Packer.frame_height g = fh →
     Packer.cell_origin g i = ((i mod cc) * fw, (i / cc) * fh)).
Proof.
  intros Hcc. split; [|by intros g i <- <- <-].
  destruct (least_free_path dir prefix pad w) as (k & Hk & Hfree & Htaken).
  exists k. split; [done|]. intros fuel Hfuel.
  pose proof (scan_names_stops _ _ prefix pad fuel 1 k ltac:(lia) Htaken Hfree
                ltac:(lia)) as Hscan.
  do 7 eexists. split.
  { apply (create_tres_file_scanned fuel fw fh fc cc prefix dir pad w k _ _ Hcc Hscan). }
  split.
  { unfold written. cbn [fs]. rewrite lookup_insert_eq. unfold document. done. }
  split.
  { by rewrite length_fmap, range_length. }
  intros i Hi. rewrite list_lookup_fmap, (range_lookup fc i Hi). done.
Qed.

(** C10: if only finitely many sequence indices [i >= 1] name an existing
    file, the file-name scan terminates: there is an index [k >= 1] whose
    path does not exist while the paths of all indices before it do, with
    fuel for [k] iterations or more the loop stops at exactly that index,
    with its base name and path, and it never stops anywhere else. *)
Theorem C10_name_scan_terminates (path_exists : str → bool)
    (target_dir filename_prefix : str) (number_padding : nat) :
  (∃ taken : list Z, ∀ i, 1 ≤ i →
     path_exists (tres_path_at target_dir filename_prefix number_padding i) = true →
     i ∈ taken) →
  ∃ k, 1 ≤ k ∧
    path_exists (tres_path_at target_dir filename_prefix number_padding k) = false ∧
    (∀ j, 1 ≤ j < k →
       path_exists (tres_path_at target_dir filename_prefix number_padding j) = true) ∧
    (∀ fuel, (Z.to_nat k ≤ fuel)%nat →
       scan_names path_exists target_dir filename_prefix number_padding fuel 1 =
       Some (k, base_name_at filename_prefix number_padding k,
             tres_path_at target_dir filename_prefix number_padding k)) ∧
    (∀ fuel r,
       scan_names path_exists target_dir filename_prefix number_padding fuel 1 =
         Some r →
       r = (k, base_name_at filename_prefix number_padding k,
            tres_path_at target_dir filename_prefix number_padding k)).
Proof.
  intros (taken & Hfin).
  set (bound := foldr Z.max 0 taken + 1).
  pose proof (foldr_max_nonneg taken) as Hnonneg.
  assert (path_exists (tres_path_at target_dir filename_prefix
                         number_padding bound) = false) as Hfree.
  { destruct (path_exists _) eqn:Hex; [|done].
    pose proof (foldr_max_ge taken bound (Hfin bound ltac:(lia) Hex)). lia. }
  destruct (least_free_index path_exists target_dir filename_prefix
              number_padding (Z.to_nat bound) 1) as (k & Hk & Hkfree & Htaken).
  { exists bound. split; [lia|done]. }
  exists k. split; [lia|]. split; [done|]. split; [done|]. split.
  - intros fuel Hfuel. apply scan_names_stops; [lia|done|done|lia].
  - intros fuel [[k' name] path] Hscan.
    destruct (scan_names_sound _ _ _ _ _ _ _ _ _ Hscan)
      as (Hk' & -> & -> & Hfree' & Htaken').
    assert (k' = k) as ->; [|done].
    destruct (Z.lt_trichotomy k' k) as [Hlt | [Heq | Hgt]]; [|done|].
    + rewrite (Htaken k') in Hfree' by lia. discriminate Hfree'.
    + rewrite (Htaken' k) in Hkfree by lia. discriminate Hkfree.
Qed.

End WriterClaims.

(** ** The writer on the sample world *)

Section WriterRuns.
Import Py Tres Spec Samples.

(** The end-to-end example: in an empty file system the first call writes
    [/base/out/anim_01.tres], and a second call from the resulting world
    writes [/base/out/anim_02.tres]. *)
Example first_call_path :
  snd <$> create_tres_file 1 64 64 4 2 (lit "anim") (lit "out") 2 fresh_world =
  Some (Ok (lit "/base/out/anim_01.tres")).
Proof. vm_compute. reflexivity. Qed.

Example second_call_path :
  (w' ← fst <$> create_tres_file 1 64 64 4 2 (lit "anim") (lit "out") 2 fresh_world;
   snd <$> create_tres_file 2 64 64 4 2 (lit "anim") (lit "out") 2 w') =
  Some (Ok (lit "/base/out/anim_02.tres")).
Proof. vm_compute. reflexivity. Qed.

(** With one iteration of fuel the second call cannot get past the
    existing file. *)
Example second_call_needs_fuel :
  (w' ← fst <$> create_tres_file 1 64 64 4 2 (lit "anim") (lit "out") 2 fresh_world;
   create_tres_file 1 64 64 4 2 (lit "anim") (lit "out") 2 w') = None.
Proof. vm_compute. reflexivity. Qed.

(** The four regions of the end-to-end example. *)
Example example_regions :
  frame_block (lit "1_0001020304") 64 64 2 <$> range 4 =
  [ sub_resource_block (lit "1_0001020304") 1 0 0 64 64;
    sub_resource_block (lit "1_0001020304") 2 64 0 64 64;
    sub_resource_block (lit "1_0001020304") 3 0 64 64 64;
    sub_resource_block (lit "1_0001020304") 4 64 64 64 64 ].
Proof. vm_compute. reflexivity. Qed.

Lemma C6_witness :
  2 ≠ 0 ∧
  ∃ k, 1 ≤ k ∧ ∀ fuel, (Z.to_nat k ≤ fuel)%nat →
    ∃ w' path image_filename id uid1 uid2 blocks,
      create_tres_file fuel 64 64 4 2 (lit "anim") (lit "out") 2 fresh_world =
        Some (w', Ok path) ∧
      fs w' !! path =
        Some (File (gd_resource_line (4 + 2) uid1 ++
                    ext_resource_line uid2 image_filename id ++
                    concat blocks ++ resource_block 4)) ∧
      length blocks = Z.to_nat 4 ∧
      ∀ i, 0 ≤ i < 4 →
        blocks !! Z.to_nat i =
        Some (sub_resource_block id (i + 1) ((i mod 2) * 64) ((i / 2) * 64) 64 64).
Proof.
  split; [lia|].
  apply (proj1 (C6_region_formula 64 64 4 2 (lit "anim") (lit "out") 2 fresh_world
                  ltac:(lia))).
Defined.

Lemma C10_witness :
  (∃ taken : list Z, ∀ i, 1 ≤ i →
     only_first_taken (tres_path_at (lit "/base/out") (lit "anim") 2 i) = true →
     i ∈ taken) ∧
  ∃ k, 1 ≤ k ∧
    only_first_taken (tres_path_at (lit "/base/out") (lit "anim") 2 k) = false ∧
    ∀ fuel, (Z.to_nat k ≤ fuel)%nat →
      scan_names only_first_taken (lit "/base/out") (lit "anim") 2 fuel 1 =
      Some (k, base_name_at (lit "anim") 2 k,
            tres_path_at (lit "/base/out") (lit "anim") 2 k).
Proof.
  assert (∃ taken : list Z, ∀ i, 1 ≤ i →
            only_first_taken (tres_path_at (lit "/base/out") (lit "anim") 2 i) = true →
            i ∈ taken) as Hfin.
  { exists [1]. intros i Hi Hex. unfold only_first_taken in Hex.
    apply bool_decide_eq_true in Hex.
    apply tres_path_at_inj in Hex; [|lia|lia]. rewrite Hex. left. }
  split; [exact Hfin|].
  destruct (C10_name_scan_terminates only_first_taken (lit "/base/out")
              (lit "anim") 2 Hfin) as (k & Hk & Hfree & _ & Hscan).
  exists k. split; [exact Hk|]. split; [exact Hfree | exact (proj1 Hscan)].
Defined.

End WriterRuns.

(** * Further properties of the grid packer *)

Section PackerExtras.
Import Py PIL Packer Spec.
Context {F : Type} `{NumericRuntime F}.

(** Frame [i] of a supported batch decodes to the image of its array. *)
Lemma tensor_to_pil_lookup (t : tensor F) (i : nat) :
  t_chans t = 3%nat ∨ t_chans t = 4%nat →
  (i < t_batch t)%nat →
  tensor_to_pil t !! i = Some (fromarray (frame_array t i) (batch_mode t)).
Proof.
  intros Hc Hi. rewrite (tensor_to_pil_supported t Hc), list_lookup_fmap.
  by rewrite lookup_seq_lt.
Qed.

Lemma tensor_to_pil_channels (t : tensor F) first rest :
  tensor_to_pil t = first :: rest →
  t_chans t = 3%nat ∨ t_chans t = 4%nat.
Proof.
  intros Hd. destruct (decide (t_chans t = 3%nat)); [by left|].
  destruct (decide (t_chans t = 4%nat)); [by right|].
  by rewrite tensor_to_pil_unsupported in Hd.
Qed.

(** Inside the cell of a placed frame the composite is that frame over
    the zero background: blended by its alpha band, or copied with an
    opaque alpha when it has none. *)
Lemma compose_cell_value g pil (i : nat) im x y c :
  1 ≤ column_count g →
  (∀ im', im' ∈ pil →
     width im' ≤ frame_width g ∧ height im' ≤ frame_height g) →
  pil !! i = Some im →
  Z.of_nat i < column_count g * row_count g →
  0 ≤ x < width im → 0 ≤ y < height im →
  let o := cell_origin g (Z.of_nat i) in
  getband (compose g pil) (o.1 + x) (o.2 + y) c =
  let src := if decide (RGBA = im_mode im) then im else convert im RGBA in
  match paste_mask im with
  | None => getband src x y c
  | Some mk => BLEND8 (getband mk x y 0) 0 (getband src x y c)
  end.
Proof.
  intros Hcc Hfit Hi Hcap Hx Hy o. unfold o.
  destruct (Hfit im (list_elem_of_lookup_2 _ _ _ Hi)) as [Hw Hh].
  rewrite (compose_pixel g pil i im x y c Hcc Hfit Hi Hcap Hx Hy).
  destruct (placed_frame_in_canvas g i im x y Hcc Hw Hh ltac:(lia) Hx Hy)
    as [Hbox Hcanvas].
  rewrite (paste_getband_inside _ _ _ _ _ _ _ Hbox Hcanvas).
  cbv zeta. rewrite blank_grid_transparent.
  rewrite !Z.add_simpl_l. done.
Qed.

(** X1: a column count of zero or less is treated as one: the node
    returns what it returns for one column, and then the frames are
    stacked in a single column, frame [i] at [(0, i * frame_height)], on a
    canvas one frame wide. *)
Theorem X1_nonpositive_columns_mean_one (t : tensor F) (cc rc : Z) :
  cc ≤ 0 →
  create_sprite_sheet t cc rc = create_sprite_sheet t 1 rc ∧
  ∀ first rest, tensor_to_pil t = first :: rest →
    let g := grid_layout first rest cc rc in
    column_count g = 1 ∧
    width (compose g (first :: rest)) = frame_width g ∧
    ∀ i, cell_origin g i = (0, i * frame_height g).
Proof.
  intros Hcc.
  assert (∀ first rest, grid_layout first rest cc rc = grid_layout first rest 1 rc)
    as Hlayout.
  { intros first rest. unfold grid_layout. by destruct (Z.leb_spec cc 0); [|lia]. }
  split.
  - unfold create_sprite_sheet. destruct (tensor_to_pil t); [done|].
    by rewrite Hlayout.
  - intros first rest _ g. unfold g. rewrite Hlayout.
    split; [done|]. split.
    + destruct (paste_frames_shape (grid_layout first rest 1 rc) 0 (first :: rest)
                  (blank_grid (grid_layout first rest 1 rc))) as (_ & Hw & _).
      unfold compose. rewrite Hw. cbn. lia.
    + intros i. unfold cell_origin. cbn [column_count grid_layout Z.leb].
      cbn. by rewrite Z.mod_1_r, Z.div_1_r.
Qed.

(** X2: with an automatic row count (supplied [row_count <= 0]) no frame
    is dropped: the capacity covers the frame count, the last row is not
    empty, and the composite is the blank canvas with every frame of the
    batch blitted in order. *)
Theorem X2_auto_rows_place_every_frame (t : tensor F) (cc rc : Z) first rest :
  tensor_to_pil t = first :: rest →
  rc ≤ 0 →
  let g := grid_layout first rest cc rc in
  let pil_images := first :: rest in
  let capacity := column_count g * row_count g in
  frame_count g ≤ capacity ∧
  capacity - frame_count g < column_count g ∧
  1 ≤ row_count g ∧
  compose g pil_images = blit_from g 0 pil_images (blank_grid g).
Proof.
  intros Hd Hrc g pil_images capacity.
  pose proof (grid_layout_column_count first rest cc rc) as [_ Hcc].
  fold g in Hcc.
  assert (row_count g = (frame_count g + column_count g - 1) / column_count g)
    as Hrow.
  { unfold g. cbn [grid_layout row_count frame_count column_count].
    by destruct (Z.leb_spec rc 0); [|lia]. }
  pose proof (ceil_div_spec (frame_count g) (column_count g) Hcc) as Hceil.
  cbv zeta in Hceil. rewrite <- Hrow in Hceil.
  assert (1 ≤ frame_count g) as Hfc.
  { unfold g. rewrite grid_layout_frame_count. cbn [length]. lia. }
  assert (frame_count g ≤ capacity) as Hcap by (unfold capacity; lia).
  split; [done|]. split; [unfold capacity; lia|]. split; [nia|].
  unfold compose. rewrite paste_frames_take, Z.sub_0_r.
  rewrite take_ge; [done|].
  unfold g in Hcap. rewrite grid_layout_frame_count in Hcap.
  fold g in Hcap. unfold pil_images, capacity in *. lia.
Qed.

(** X3: what no placed frame covers stays transparent.  A position outside
    the extent of every frame the loop places has all bands zero in the
    composite; in particular every cell whose index is at or past the
    number of frames is empty. *)
Theorem X3_uncovered_stays_transparent (t : tensor F) (cc rc : Z) first rest :
  tensor_to_pil t = first :: rest →
  let g := grid_layout first rest cc rc in
  let pil_images := first :: rest in
  (∀ x y,
     (∀ (i : nat) im, pil_images !! i = Some im →
        Z.of_nat i < column_count g * row_count g →
        ¬ in_box (cell_origin g (Z.of_nat i)) im x y) →
     ∀ c, getband (compose g pil_images) x y c = 0) ∧
  (∀ j x y c,
     frame_count g ≤ j →
     0 ≤ x < frame_width g → 0 ≤ y < frame_height g →
     getband (compose g pil_images)
       ((cell_origin g j).1 + x) ((cell_origin g j).2 + y) c = 0).
Proof.
  intros Hd g pil_images.
  assert (∀ x y,
     (∀ (i : nat) im, pil_images !! i = Some im →
        Z.of_nat i < column_count g * row_count g →
        ¬ in_box (cell_origin g (Z.of_nat i)) im x y) →
     ∀ c, getband (compose g pil_images) x y c = 0) as Hgen.
  { intros x y Hmiss c. unfold compose.
    rewrite paste_frames_untouched; [apply blank_grid_transparent|].
    intros k im Hk Hcap. rewrite Z.add_0_l in *. by apply Hmiss. }
  split; [exact Hgen|].
  intros j x y c Hj Hx Hy. apply Hgen.
  intros i im Hi _ [Hcol Hrow].
  pose proof (grid_layout_column_count first rest cc rc) as [_ Hcc].
  destruct (grid_layout_frame_bounds first rest cc rc im
              (list_elem_of_lookup_2 _ _ _ Hi)) as [Hw Hh].
  fold g in Hcc, Hw, Hh.
  pose proof (lookup_lt_Some _ _ _ Hi) as Hlen.
  unfold g in Hj. rewrite grid_layout_frame_count in Hj. fold pil_images in Hj.
  unfold cell_origin in *. cbn [fst snd] in *.
  apply (cells_disjoint (column_count g) (frame_width g) (frame_height g)
           j (Z.of_nat i) (width im) (height im) x y); [lia..|].
  split; lia.
Qed.

End PackerExtras.

Section PackerValues.
Import Py PIL Packer Spec.
Context {F : Type} `{NumericRuntime F}.

(** X4: where a frame is placed, the returned tensor holds that frame's
    quantized values, normalized again.  For frame [i] of the batch, below
    the capacity, and a pixel [(y, x)] of it, the output at the frame's
    cell origin plus [(y, x)] is, in channel [c]: for a three-channel
    batch the quantized input for [c < 3] and 255 for the alpha channel;
    for a four-channel batch the blend of the zero background with the
    quantized input by the pixel's quantized alpha. *)
Theorem X4_output_holds_the_frames (t : tensor F) (cc rc : Z) first rest :
  tensor_to_pil t = first :: rest →
  let g := grid_layout first rest cc rc in
  let out := to_tensor (compose g (first :: rest)) in
  create_sprite_sheet t cc rc =
    Ok (out, frame_width g, frame_height g, frame_count g) ∧
  ∀ (i y x c b : nat),
    (i < t_batch t)%nat → (y < t_rows t)%nat → (x < t_cols t)%nat →
    Z.of_nat i < column_count g * row_count g →
    let o := cell_origin g (Z.of_nat i) in
    t_at out b (Z.to_nat o.2 + y) (Z.to_nat o.1 + x) c =
    normalize
      (if (t_chans t =? 4)%nat
       then BLEND8 (quantize (t_at t i y x 3)) 0 (quantize (t_at t i y x c))
       else if (c <? 3)%nat then quantize (t_at t i y x c) else 255).
Proof.
  intros Hd g out.
  split; [by apply create_sprite_sheet_decoded|].
  intros i y x c b Hi Hy Hx Hcap o.
  pose proof (tensor_to_pil_channels t first rest Hd) as Hc.
  pose proof (tensor_to_pil_lookup t i Hc Hi) as Hlook. rewrite Hd in Hlook.
  pose proof (grid_layout_column_count first rest cc rc) as [_ Hcc].
  pose proof (grid_layout_frame_bounds first rest cc rc) as Hfit.
  fold g in Hcc, Hfit.
  set (im := fromarray (frame_array t i) (batch_mode t)) in *.
  assert (0 ≤ o.1 ∧ 0 ≤ o.2) as [Ho1 Ho2].
  { unfold o, cell_origin. cbn [fst snd].
    pose proof (Z.mod_pos_bound (Z.of_nat i) (column_count g) ltac:(lia)).
    assert (0 ≤ Z.of_nat i / column_count g) by (apply Z.div_pos; lia).
    assert (0 ≤ frame_width g ∧ 0 ≤ frame_height g) as [? ?].
    { destruct (Hfit im (list_elem_of_lookup_2 _ _ _ Hlook)) as [Hw Hh].
      unfold im in Hw, Hh. cbn [fromarray width height] in Hw, Hh. lia. }
    split; nia. }
  unfold out. cbn [to_tensor t_at asarray nd_at]. f_equal.
  replace (Z.of_nat (Z.to_nat o.1 + x)) with (o.1 + Z.of_nat x) by lia.
  replace (Z.of_nat (Z.to_nat o.2 + y)) with (o.2 + Z.of_nat y) by lia.
  unfold o.
  rewrite (compose_cell_value g (first :: rest) i im (Z.of_nat x) (Z.of_nat y) c
             Hcc Hfit Hlook Hcap); [|cbn; lia|cbn; lia].
  cbv zeta. unfold paste_mask, im, batch_mode.
  destruct Hc as [Hc | Hc]; rewrite Hc; cbn [Nat.eqb].
  - rewrite !decide_False by done.
    cbn [convert getband fromarray im_mode frame_array nd_at].
    by rewrite !Nat2Z.id.
  - rewrite !decide_True by done.
    cbn [split_band getband fromarray frame_array nd_at].
    by rewrite !Nat2Z.id.
Qed.

(** X5: whenever the node returns, the three numbers it returns are the
    batch's own: [frame_width] and [frame_height] are the width and
    height of the tensor's frames and [frame_count] its batch length; the
    batch then has three or four channels, and the composite has
    [frame_height * row_count] rows and [frame_width * column_count]
    columns for the coerced column count and the given or automatic row
    count. *)
Theorem X5_returned_metadata (t : tensor F) (cc rc : Z) out fw fh fc :
  create_sprite_sheet t cc rc = Ok (out, fw, fh, fc) →
  let columns := if cc <=? 0 then 1 else cc in
  let rows := if rc <=? 0 then (fc + columns - 1) / columns else rc in
  (t_chans t = 3%nat ∨ t_chans t = 4%nat) ∧
  fc = Z.of_nat (t_batch t) ∧ 1 ≤ fc ∧
  fw = Z.of_nat (t_cols t) ∧ fh = Z.of_nat (t_rows t) ∧
  t_rows out = Z.to_nat (fh * rows) ∧
  t_cols out = Z.to_nat (fw * columns).
Proof.
  unfold create_sprite_sheet.
  destruct (tensor_to_pil t) as [|first rest] eqn:Hd; [done|].
  intros [= <- <- <- <-]. cbv zeta.
  pose proof (tensor_to_pil_channels t first rest Hd) as Hc.
  pose proof (tensor_to_pil_length t Hc) as Hlen. rewrite Hd in Hlen.
  destruct (tensor_frames_fill_cells t first rest cc rc first Hd ltac:(left))
    as [Hw Hh].
  destruct (tensor_to_pil_frame t first ltac:(rewrite Hd; left))
    as (_ & Hw' & Hh').
  destruct (paste_frames_shape (grid_layout first rest cc rc) 0 (first :: rest)
              (blank_grid (grid_layout first rest cc rc))) as (_ & Hcw & Hch).
  cbn [grid_layout frame_width frame_height] in Hw, Hh. cbn [length] in Hlen.
  split; [done|].
  split; [by rewrite Hlen|].
  split; [lia|].
  split; [congruence|]. split; [congruence|].
  cbn [to_tensor t_rows t_cols asarray nd_rows nd_cols]. unfold compose.
  rewrite Hcw, Hch. done.
Qed.

Lemma BLEND8_opaque_on_zero v : 0 ≤ v ≤ 255 → BLEND8 255 0 v = v.
Proof.
  intros Hv. unfold BLEND8, DIV255. cbv zeta.
  rewrite !Z.shiftr_div_pow2 by lia. change (2 ^ 8) with 256.
  Z.div_mod_to_equations. lia.
Qed.

(** X6: in a four-channel batch a fully opaque pixel of a placed frame
    (quantized alpha 255) is copied exactly: the output holds its
    quantized value in every channel, given that the value is an 8-bit
    one. *)
Theorem X6_opaque_pixels_are_copied (t : tensor F) (cc rc : Z) first rest
    (i y x c b : nat) :
  tensor_to_pil t = first :: rest →
  t_chans t = 4%nat →
  (i < t_batch t)%nat → (y < t_rows t)%nat → (x < t_cols t)%nat →
  quantize (t_at t i y x 3) = 255 →
  0 ≤ quantize (t_at t i y x c) ≤ 255 →
  let g := grid_layout first rest cc rc in
  Z.of_nat i < column_count g * row_count g →
  let o := cell_origin g (Z.of_nat i) in
  t_at (to_tensor (compose g (first :: rest))) b
       (Z.to_nat o.2 + y) (Z.to_nat o.1 + x) c =
  normalize (quantize (t_at t i y x c)).
Proof.
  intros Hd Hc Hi Hy Hx Halpha Hrange g Hcap o.
  pose proof (compose_cell_value g (first :: rest) i
                (fromarray (frame_array t i) (batch_mode t))
                (Z.of_nat x) (Z.of_nat y) c) as Hpx.
  pose proof (grid_layout_column_count first rest cc rc) as [_ Hcc].
  pose proof (grid_layout_frame_bounds first rest cc rc) as Hfit.
  pose proof (tensor_to_pil_lookup t i ltac:(by right) Hi) as Hlook.
  rewrite Hd in Hlook. fold g in Hcc, Hfit.
  specialize (Hpx Hcc Hfit Hlook Hcap ltac:(cbn; lia) ltac:(cbn; lia)).
  cbv zeta in Hpx. unfold paste_mask, batch_mode in Hpx.
  rewrite Hc in Hpx. cbn [Nat.eqb] in Hpx. rewrite !decide_True in Hpx by done.
  cbn [split_band getband fromarray frame_array nd_at] in Hpx.
  rewrite !Nat2Z.id, Halpha, (BLEND8_opaque_on_zero _ Hrange) in Hpx.
  assert (0 ≤ o.1 ∧ 0 ≤ o.2) as [Ho1 Ho2].
  { unfold o, cell_origin. cbn [fst snd].
    pose proof (Z.mod_pos_bound (Z.of_nat i) (column_count g) ltac:(lia)).
    assert (0 ≤ Z.of_nat i / column_count g) by (apply Z.div_pos; lia).
    assert (0 ≤ frame_width g ∧ 0 ≤ frame_height g) as [? ?].
    { destruct (Hfit _ (list_elem_of_lookup_2 _ _ _ Hlook)) as [Hw Hh].
      cbn [fromarray width height] in Hw, Hh. lia. }
    split; nia. }
  cbn [to_tensor t_at asarray nd_at]. f_equal.
  replace (Z.of_nat (Z.to_nat o.1 + x)) with (o.1 + Z.of_nat x) by lia.
  replace (Z.of_nat (Z.to_nat o.2 + y)) with (o.2 + Z.of_nat y) by lia.
  exact Hpx.
Qed.

End PackerValues.

(** * Further properties of the resource writer *)

Section WriterErrors.
Import Py Tres Spec.

Local Arguments lit : simpl never.
Local Arguments str_of_int : simpl never.

Lemma range_nil n : n ≤ 0 → range n = [].
Proof. intros Hn. unfold range. by replace (Z.to_nat n) with 0%nat by lia. Qed.

Lemma range_cons n : 1 ≤ n → ∃ rest, range n = 0 :: rest.
Proof.
  intros Hn. unfold range.
  destruct (Z.to_nat n) as [|m] eqn:Hm; [lia|]. cbn. eauto.
Qed.

(** The document of a batch without frames, whatever the column count. *)
Lemma generate_document_no_frames image_filename fw fh fc cc w :
  fc ≤ 0 →
  generate_godot_tres_content image_filename fw fh fc cc w =
  (advance 29 w, Ok (document image_filename fw fh fc cc w)).
Proof.
  intros Hfc. unfold generate_godot_tres_content, document.
  unfold mbind, M_bind, mret, M_ret, os_urandom, lift.
  cbn [cursor entropy fs base_path].
  rewrite (range_nil fc Hfc). cbn [sub_resources_loop fmap list_fmap concat app].
  unfold advance, gd_resource_line, ext_resource_line, resource_block, entropy_at.
  rewrite (range_nil fc Hfc).
  f_equal; [f_equal; lia|]. f_equal.
  replace (cursor w + 5 + 12)%nat with (cursor w + 17)%nat by lia.
  by rewrite <- !app_assoc.
Qed.

(** With a zero column count the first frame index already fails. *)
Lemma generate_division_by_zero image_filename fw fh fc w :
  1 ≤ fc →
  generate_godot_tres_content image_filename fw fh fc 0 w =
  (advance 29 w, Raise ZeroDivisionError).
Proof.
  intros Hfc. unfold generate_godot_tres_content.
  unfold mbind, M_bind, mret, M_ret, os_urandom, lift.
  cbn [cursor entropy fs base_path].
  destruct (range_cons fc Hfc) as (rest & ->).
  cbn [sub_resources_loop divmod Z.eqb]. unfold advance.
  f_equal. f_equal. lia.
Qed.


(** The node's result when the generator fails. *)
Lemma create_tres_file_scanned_zero fuel fw fh fc prefix dir pad w k name path :
  1 ≤ fc →
  scan_names (os_path_exists (prepared dir w)) (resolve_target_dir dir w)
    prefix pad fuel 1 = Some (k, name, path) →
  create_tres_file fuel fw fh fc 0 prefix dir pad w =
  Some (advance 29 (prepared dir w), Raise ZeroDivisionError).
Proof.
  intros Hfc Hscan. unfold create_tres_file. cbv zeta.
  change (os_makedirs (resolve_target_dir dir w) w)
    with (prepared dir w, @Ok unit ()).
  cbv iota beta. rewrite Hscan.
  unfold mbind, M_bind. by rewrite generate_division_by_zero.
Qed.

(** X8: called with a zero column count and at least one frame, the node
    raises [ZeroDivisionError] after the name scan: no file is written,
    not even at the path it had chosen, but the target directory has been
    created and stays. *)
Theorem X8_failed_call_leaves_directory (fw fh fc : Z) (prefix dir : str)
    (pad : nat) (w : world) :
  1 ≤ fc →
  ∃ k, 1 ≤ k ∧ ∀ fuel, (Z.to_nat k ≤ fuel)%nat →
    ∃ w',
      create_tres_file fuel fw fh fc 0 prefix dir pad w =
        Some (w', Raise ZeroDivisionError) ∧
      fs w' = fs (prepared dir w) ∧
      is_Some (fs w' !! resolve_target_dir dir w) ∧
      fs w' !! tres_path_at (resolve_target_dir dir w) prefix pad k = None ∧
      (∀ p content, fs w' !! p = Some (File content) →
                    fs w !! p = Some (File content)).
Proof.
  intros Hfc.
  destruct (least_free_path dir prefix pad w) as (k & Hk & Hfree & Htaken).
  exists k. split; [done|]. intros fuel Hfuel.
  pose proof (scan_names_stops _ _ prefix pad fuel 1 k ltac:(lia) Htaken Hfree
                ltac:(lia)) as Hscan.
  eexists. split.
  { apply (create_tres_file_scanned_zero fuel fw fh fc prefix dir pad w k _ _
             Hfc Hscan). }
  cbn [advance fs]. split; [done|].
  split; [apply prepared_target_exists|].
  split; [by apply os_path_exists_false|].
  intros p content. unfold prepared, os_makedirs. cbn [fst].
  destruct (fs w !! resolve_target_dir dir w) eqn:Hl; [done|].
  cbn [fs]. rewrite lookup_insert. by case_decide.
Qed.

End WriterErrors.

Section WriterPaths.
Import Py Tres Spec.

Lemma generate_cases image_filename fw fh fc cc w :
  generate_godot_tres_content image_filename fw fh fc cc w =
  (advance 29 w,
   if decide (cc = 0 ∧ 1 ≤ fc) then Raise ZeroDivisionError
   else Ok (document image_filename fw fh fc cc w)).
Proof.
  case_decide as Hz.
  - destruct Hz as [-> Hfc]. by apply generate_division_by_zero.
  - destruct (decide (cc = 0)) as [->|Hcc].
    + apply generate_document_no_frames. lia.
    + by apply generate_document.
Qed.

(** The node's result in terms of the scan, for any arguments. *)
Lemma create_tres_file_unfold fuel fw fh fc cc prefix dir pad w :
  create_tres_file fuel fw fh fc cc prefix dir pad w =
  match scan_names (os_path_exists (prepared dir w)) (resolve_target_dir dir w)
          prefix pad fuel 1 with
  | None => None
  | Some (_, name, path) =>
      Some (if decide (cc = 0 ∧ 1 ≤ fc)
            then (advance 29 (prepared dir w), Raise ZeroDivisionError)
            else (written path
                    (document (name ++ lit ".png") fw fh fc cc (prepared dir w))
                    (prepared dir w),
                  Ok path))
  end.
Proof.
  unfold create_tres_file. cbv zeta.
  change (os_makedirs (resolve_target_dir dir w) w)
    with (prepared dir w, @Ok unit ()).
  cbv iota beta.
  destruct (scan_names _ _ _ _ _ _) as [[[k name] path]|]; [|done].
  unfold mbind, M_bind. rewrite generate_cases. by case_decide.
Qed.

(** Fuel that does not reach the first free index is used up. *)
Lemma scan_names_none path_exists target_dir prefix pad fuel i k :
  (∀ j, i ≤ j < k → path_exists (tres_path_at target_dir prefix pad j) = true) →
  (Z.of_nat fuel ≤ k - i) →
  scan_names path_exists target_dir prefix pad fuel i = None.
Proof.
  revert i. induction fuel as [|fuel IH]; intros i Htaken Hfuel; [done|].
  cbn [scan_names]. rewrite (Htaken i) by lia. cbn [negb].
  apply IH; [|lia]. intros j Hj. apply Htaken. lia.
Qed.

(** X9: the scan makes exactly as many existence checks as the index it
    ends on: with [k] the least index whose path is free, the node comes
    back for every fuel of at least [k] iterations and is still scanning
    for every smaller one, whatever the other arguments are. *)
Theorem X9_scan_needs_k_iterations (fw fh fc cc : Z) (prefix dir : str)
    (pad : nat) (w : world) :
  ∃ k, 1 ≤ k ∧
    fs (prepared dir w) !! tres_path_at (resolve_target_dir dir w) prefix pad k
      = None ∧
    (∀ j, 1 ≤ j < k →
       is_Some (fs (prepared dir w) !!
                  tres_path_at (resolve_target_dir dir w) prefix pad j)) ∧
    ∀ fuel,
      create_tres_file fuel fw fh fc cc prefix dir pad w = None ↔
      (fuel < Z.to_nat k)%nat.
Proof.
  destruct (least_free_path dir prefix pad w) as (k & Hk & Hfree & Htaken).
  exists k. split; [done|].
  split; [by apply os_path_exists_false|].
  split; [intros j Hj; by apply os_path_exists_true, Htaken|].
  intros fuel. rewrite create_tres_file_unfold. split.
  - intros Hnone. destruct (decide (fuel < Z.to_nat k)%nat); [done|].
    rewrite (scan_names_stops _ _ prefix pad fuel 1 k ltac:(lia) Htaken Hfree
               ltac:(lia)) in Hnone. done.
  - intros Hfuel.
    by rewrite (scan_names_none _ _ prefix pad fuel 1 k Htaken ltac:(lia)).
Qed.

Lemma starts_with_sep_app a b :
  starts_with_sep a = true → starts_with_sep (a ++ b) = true.
Proof. by destruct a. Qed.

Lemma os_path_join_isabs a b :
  os_path_isabs a = true → os_path_isabs (os_path_join a b) = true.
Proof.
  intros Ha. unfold os_path_isabs, os_path_join in *.
  destruct (starts_with_sep b) eqn:Hb; [done|].
  destruct (_ || _); by apply starts_with_sep_app.
Qed.

Lemma resolve_target_dir_isabs dir w :
  os_path_isabs (base_path w) = true →
  os_path_isabs (resolve_target_dir dir w) = true.
Proof.
  intros Hb. unfold resolve_target_dir. cbv zeta.
  destruct (os_path_isabs (strip dir)) eqn:Hd; cbn [negb]; [done|].
  by apply os_path_join_isabs.
Qed.

(** X10: when the host's base path is absolute, the directory the node
    resolves and the path it returns are absolute, and the returned path
    holds the file it wrote. *)
Theorem X10_returned_path_is_absolute (fuel : nat) (fw fh fc cc : Z)
    (prefix dir : str) (pad : nat) (w w' : world) (path : str) :
  os_path_isabs (base_path w) = true →
  create_tres_file fuel fw fh fc cc prefix dir pad w = Some (w', Ok path) →
  os_path_isabs (resolve_target_dir dir w) = true ∧
  os_path_isabs path = true ∧
  ∃ content, fs w' !! path = Some (File content).
Proof.
  intros Habs. rewrite create_tres_file_unfold.
  destruct (scan_names _ _ _ _ _ _) as [[[k name] p]|] eqn:Hscan; [|done].
  destruct (scan_names_sound _ _ _ _ _ _ _ _ _ Hscan) as (_ & -> & -> & _ & _).
  case_decide; [done|]. intros [= <- <-].
  split; [by apply resolve_target_dir_isabs|]. split.
  - unfold tres_path_at. cbv zeta.
    by apply os_path_join_isabs, resolve_target_dir_isabs.
  - eexists. unfold written. cbn [fs]. by rewrite lookup_insert_eq.
Qed.

Lemma lstrip_spaces ws s : Forall (λ c, isspace c = true) ws → lstrip (ws ++ s) = lstrip s.
Proof.
  induction 1 as [|c ws Hc _ IH]; [done|]. cbn [app lstrip]. by rewrite Hc.
Qed.

Lemma lstrip_all_spaces ws : Forall (λ c, isspace c = true) ws → lstrip ws = [].
Proof.
  intros Hws. rewrite <- (app_nil_r ws). by rewrite lstrip_spaces.
Qed.

Lemma lstrip_app_keep s t : lstrip s ≠ [] → lstrip (s ++ t) = lstrip s ++ t.
Proof.
  induction s as [|c s IH]; [done|]. cbn [app lstrip].
  destruct (isspace c); [exact IH|done].
Qed.

Lemma lstrip_nil_spaces s : lstrip s = [] → Forall (λ c, isspace c = true) s.
Proof.
  induction s as [|c s IH]; [done|]. cbn [lstrip].
  destruct (isspace c) eqn:Hc; [|done]. intros Hs. constructor; auto.
Qed.

(** White space around a string does not change what [strip] returns. *)
Lemma strip_spaces ws1 s ws2 :
  Forall (λ c, isspace c = true) ws1 →
  Forall (λ c, isspace c = true) ws2 →
  strip (ws1 ++ s ++ ws2) = strip s.
Proof.
  intros H1 H2. unfold strip. rewrite lstrip_spaces by done.
  destruct (decide (lstrip s = [])) as [Hs|Hs].
  - rewrite Hs, (lstrip_all_spaces (s ++ ws2)); [done|].
    apply Forall_app. split; [by apply lstrip_nil_spaces|done].
  - rewrite lstrip_app_keep by done. rewrite reverse_app.
    rewrite lstrip_spaces; [done|]. by apply Forall_reverse.
Qed.

(** X11: white space before and after [save_directory_path] is ignored:
    the node resolves the same directory and does the same with and
    without it. *)
Theorem X11_directory_whitespace_ignored (fuel : nat) (fw fh fc cc : Z)
    (prefix dir ws1 ws2 : str) (pad : nat) (w : world) :
  Forall (λ c, isspace c = true) ws1 →
  Forall (λ c, isspace c = true) ws2 →
  resolve_target_dir (ws1 ++ dir ++ ws2) w = resolve_target_dir dir w ∧
  create_tres_file fuel fw fh fc cc prefix (ws1 ++ dir ++ ws2) pad w =
  create_tres_file fuel fw fh fc cc prefix dir pad w.
Proof.
  intros H1 H2.
  assert (resolve_target_dir (ws1 ++ dir ++ ws2) w = resolve_target_dir dir w)
    as Hres.
  { unfold resolve_target_dir. by rewrite strip_spaces. }
  split; [done|]. unfold create_tres_file. by rewrite Hres.
Qed.

End WriterPaths.

(** ** Calling the writer again and again *)

Module Repeated.
Import Py Tres.

(** [n] calls of [create_tres_file] with the same arguments, one after the
    other, each from the world the previous one left; the results in call
    order.  [None] when one of the scans runs out of fuel. *)
Fixpoint call_times (n fuel : nat) (fw fh fc cc : Z) (prefix dir : str)
    (pad : nat) (w : world) : option (world * list (result str)) :=
  match n with
  | O => Some (w, [])
  | S n =>
      match create_tres_file fuel fw fh fc cc prefix dir pad w with
      | None => None
      | Some (w', r) =>
          match call_times n fuel fw fh fc cc prefix dir pad w' with
          | None => None
          | Some (w'', rs) => Some (w'', r :: rs)
          end
      end
  end.

End Repeated.

Section RepeatedCalls.
Import Py Tres Spec Repeated.
Variables (fw fh fc cc : Z) (prefix dir : str) (pad : nat).
Variable target_dir : str.
Variable base : str.
Hypothesis Hcc : cc ≠ 0.

Local Abbreviation path_at := (tres_path_at target_dir prefix pad).

(** Exactly the first [m] candidate names are taken, in a world of the
    given base path whose target directory is [target_dir]. *)
Definition taken_up_to (m : Z) (w : world) : Prop :=
  base_path w = base ∧
  resolve_target_dir dir w = target_dir ∧
  ∀ j, 1 ≤ j →
    (os_path_exists (prepared dir w) (path_at j) = true ↔ j ≤ m).

(** One call takes the next name and keeps everything else. *)
Lemma create_tres_file_next m w fuel :
  0 ≤ m → taken_up_to m w → (Z.to_nat m < fuel)%nat →
  ∃ w' content,
    create_tres_file fuel fw fh fc cc prefix dir pad w =
      Some (w', Ok (path_at (m + 1))) ∧
    taken_up_to (m + 1) w' ∧
    prepared dir w' = w' ∧
    fs w' = <[path_at (m + 1) := File content]> (fs (prepared dir w)) ∧
    fs (prepared dir w) !! path_at (m + 1) = None.
Proof.
  intros Hm (Hbase & Htarget & Htaken) Hfuel.
  assert (os_path_exists (prepared dir w) (path_at (m + 1)) = false) as Hfree.
  { destruct (os_path_exists _ _) eqn:Hex; [|done].
    apply Htaken in Hex; lia. }
  pose proof (scan_names_stops (os_path_exists (prepared dir w)) target_dir
                prefix pad fuel 1 (m + 1) ltac:(lia)
                ltac:(intros j Hj; apply Htaken; lia) Hfree ltac:(lia)) as Hscan.
  rewrite <- Htarget in Hscan at 1.
  pose proof (create_tres_file_scanned fuel fw fh fc cc prefix dir pad w _ _ _
                Hcc Hscan) as Hcall.
  apply os_path_exists_false in Hfree.
  remember (document (base_name_at prefix pad (m + 1) ++ lit ".png") fw fh fc cc
              (prepared dir w)) as content eqn:Hcontent.
  remember (written (path_at (m + 1)) content (prepared dir w)) as w' eqn:Hw'.
  assert (fs w' = <[path_at (m + 1) := File content]> (fs (prepared dir w)))
    as Hfs' by (by rewrite Hw').
  assert (base_path w' = base) as Hbase'.
  { rewrite Hw'. unfold written. cbn [base_path].
    by rewrite prepared_base_path. }
  assert (resolve_target_dir dir w' = target_dir) as Htarget'.
  { rewrite <- Htarget. apply resolve_target_dir_base. congruence. }
  assert (prepared dir w' = w') as Hprep.
  { apply prepared_idle. rewrite Htarget', Hfs'.
    pose proof (prepared_target_exists dir w) as Hex. rewrite Htarget in Hex.
    rewrite lookup_insert_ne; [done|].
    intros Heq. rewrite <- Heq, Hfree in Hex. by destruct Hex. }
  exists w', content. split; [exact Hcall|]. split; [|done].
  split; [done|]. split; [done|].
  intros j Hj. rewrite Hprep, os_path_exists_true, Hfs'.
  destruct (decide (j = m + 1)) as [->|Hne].
  - rewrite lookup_insert_eq. split; [lia|eauto].
  - rewrite lookup_insert_ne.
    + rewrite <- os_path_exists_true, (Htaken j Hj). lia.
    + intros Heq%tres_path_at_inj; lia.
Qed.

(** [n] calls take the next [n] names in order. *)
Lemma call_times_next n m w fuel :
  0 ≤ m → taken_up_to m w → (Z.to_nat m + n ≤ fuel)%nat →
  ∃ w_n,
    call_times n fuel fw fh fc cc prefix dir pad w =
      Some (w_n, (λ j : nat, Ok (path_at (m + Z.of_nat j))) <$> seq 1 n) ∧
    taken_up_to (m + Z.of_nat n) w_n ∧
    (n ≠ 0%nat → prepared dir w_n = w_n) ∧
    (∀ j, m < j ≤ m + Z.of_nat n →
       ∃ content, fs w_n !! path_at j = Some (File content)) ∧
    (n ≠ 0%nat → ∀ p, is_Some (fs (prepared dir w) !! p) →
       fs w_n !! p = fs (prepared dir w) !! p).
Proof.
  revert m w. induction n as [|n IH]; intros m w Hm Hinv Hfuel.
  - exists w. cbn [call_times seq fmap list_fmap].
    split; [done|]. rewrite Z.add_0_r. split; [done|].
    split; [done|]. split; [intros j Hj; lia|done].
  - destruct (create_tres_file_next m w fuel Hm Hinv ltac:(lia))
      as (w' & content & Hcall & Hinv' & Hprep' & Hfs' & Hfree).
    destruct (IH (m + 1) w' ltac:(lia) Hinv' ltac:(lia))
      as (w_n & Hcalls & Hinv_n & Hprep_n & Hfiles & Hkeep).
    exists w_n. cbn [call_times]. rewrite Hcall, Hcalls.
    assert (∀ p, is_Some (fs w' !! p) → fs w_n !! p = fs w' !! p) as Hkeep'.
    { destruct n as [|n].
      - cbn [call_times] in Hcalls. by injection Hcalls as <-.
      - intros p Hp. specialize (Hkeep ltac:(done) p).
        rewrite Hprep' in Hkeep. by apply Hkeep. }
    split.
    { f_equal. f_equal. cbn [seq fmap list_fmap]. f_equal.
      rewrite <- (fmap_S_seq 1 n), <- list_fmap_compose.
      apply list_fmap_ext. intros i j _. cbn. do 2 f_equal. lia. }
    split.
    { replace (m + Z.of_nat (S n)) with (m + 1 + Z.of_nat n) by lia. done. }
    split.
    { intros _. destruct n as [|n]; [|by apply Hprep_n].
      cbn [call_times] in Hcalls. by injection Hcalls as <-. }
    split.
    { intros j Hj. destruct (decide (j = m + 1)) as [->|Hne].
      - exists content. rewrite Hkeep'; rewrite Hfs', lookup_insert_eq; eauto.
      - apply Hfiles. lia. }
    intros _ p Hp. rewrite Hkeep'.
    + rewrite Hfs'. apply lookup_insert_ne. intros <-.
      rewrite Hfree in Hp. by destruct Hp.
    + rewrite Hfs', lookup_insert_ne; [done|]. intros <-.
      rewrite Hfree in Hp. by destruct Hp.
Qed.

End RepeatedCalls.

Section RepeatedClaims.
Import Py Tres Spec Repeated.

(** X12: calling the node [n] times in a row with the same arguments,
    starting where no candidate name is taken, writes the files of index
    1, 2, ..., [n] in that order (given fuel for [n] iterations): every
    call returns the next path, all [n] files are there at the end, the
    names after them are still free, and nothing that existed before was
    touched. *)
Theorem X12_repeated_calls_count_up (fw fh fc cc : Z) (prefix dir : str)
    (pad : nat) (w : world) (n fuel : nat) :
  cc ≠ 0 →
  (∀ j, 1 ≤ j →
     os_path_exists (prepared dir w)
       (tres_path_at (resolve_target_dir dir w) prefix pad j) = false) →
  (n ≤ fuel)%nat →
  ∃ w_n,
    call_times n fuel fw fh fc cc prefix dir pad w =
      Some (w_n,
            (λ j : nat,
               Ok (tres_path_at (resolve_target_dir dir w) prefix pad (Z.of_nat j)))
              <$> seq 1 n) ∧
    (∀ j, 1 ≤ j ≤ Z.of_nat n →
       ∃ content,
         fs w_n !! tres_path_at (resolve_target_dir dir w) prefix pad j =
           Some (File content)) ∧
    (∀ j, Z.of_nat n < j →
       fs (prepared dir w_n) !!
         tres_path_at (resolve_target_dir dir w) prefix pad j = None) ∧
    (∀ p, is_Some (fs w !! p) → fs w_n !! p = fs w !! p).
Proof.
  intros Hcc Hempty Hfuel.
  assert (taken_up_to prefix dir pad (resolve_target_dir dir w) (base_path w) 0 w)
    as Hinv.
  { split; [done|]. split; [done|]. intros j Hj. rewrite (Hempty j Hj).
    split; [done|lia]. }
  destruct (call_times_next fw fh fc cc prefix dir pad (resolve_target_dir dir w)
              (base_path w) Hcc n 0 w fuel ltac:(lia) Hinv ltac:(lia))
    as (w_n & Hcalls & Hinv_n & _ & Hfiles & Hkeep).
  exists w_n. split.
  { rewrite Hcalls. f_equal. }
  split; [intros j Hj; apply Hfiles; lia|].
  split.
  - intros j Hj. destruct Hinv_n as (_ & _ & Htaken).
    apply os_path_exists_false.
    destruct (os_path_exists _ _) eqn:Hex; [|done].
    apply Htaken in Hex; lia.
  - intros p Hp. destruct n as [|n].
    + cbn [call_times] in Hcalls. by injection Hcalls as <-.
    + rewrite Hkeep; [by apply prepared_keeps|done|].
      by rewrite prepared_keeps.
Qed.

End RepeatedClaims.

(** ** Identifiers and names *)

Module Names.
Import Py.

(** A lowercase hexadecimal digit. *)
Definition is_lower_hex (c : N) : bool :=
  ((48 <=? c) && (c <=? 57) || (97 <=? c) && (c <=? 102))%N.

(** A decimal digit. *)
Definition is_digit (c : N) : bool := ((48 <=? c) && (c <=? 57))%N.

(** The number a string of decimal digits denotes, read left to right. *)
Definition decimal_value (s : str) : Z :=
  foldl (λ acc c, acc * 10 + (Z.of_N c - 48)) 0 s.

(** The identifier of sub-resource number [n]. *)
Definition atlas_id (n : Z) : str := lit "AtlasTexture_" ++ str_of_int n.

End Names.


(** ** The blocks of a document, with their identifiers written out *)

Module Blocks.
Import Py Tres.

(** A sub-resource block that declares the identifier [atlas] for the
    rectangle [rect = (x, y, w, h)] of the image [image_resource_id]. *)
Definition atlas_block (image_resource_id atlas : str) (rect : Z * Z * Z * Z)
    : str :=
  let '(x, y, w, h) := rect in
  lit "[sub_resource type=" ++ dq ++ lit "AtlasTexture" ++ dq ++
  lit " id=" ++ dq ++ atlas ++ dq ++ lit "]" ++ nl ++
  lit "atlas = ExtResource(" ++ dq ++ image_resource_id ++ dq ++ lit ")" ++ nl ++
  lit "region = Rect2(" ++ str_of_int x ++ lit ", " ++ str_of_int y ++
  lit ", " ++ str_of_int w ++ lit ", " ++ str_of_int h ++ lit ")" ++ nl ++ nl.

(** An entry of the animation's frame list that refers to the
    sub-resource [atlas]. *)
Definition animation_entry (atlas : str) : str :=
  lit "{ " ++ dq ++ lit "duration" ++ dq ++ lit ": 1.0, " ++ dq ++
  lit "texture" ++ dq ++ lit ": SubResource(" ++ dq ++ atlas ++ dq ++ lit ") }".

(** The resource block with the given frame list. *)
Definition animation_block (entries : list str) : str :=
  lit "[resource]" ++ nl ++
  lit "animations = [{" ++ nl ++ dq ++ lit "frames" ++ dq ++ lit ": [ " ++
  join_with (lit ", ") entries ++
  lit " ]," ++ nl ++ dq ++ lit "loop" ++ dq ++ lit ": true," ++ nl ++
  dq ++ lit "name" ++ dq ++ lit ": &" ++ dq ++ lit "default" ++ dq ++
  lit "," ++ nl ++ dq ++ lit "speed" ++ dq ++ lit ": 5.0" ++ nl ++ lit "}]".

(** The rectangle of frame index [i] under the row-major formula. *)
Definition frame_rect (fw fh cc i : Z) : Z * Z * Z * Z :=
  ((i mod cc) * fw, (i / cc) * fh, fw, fh).

End Blocks.

Section NameFacts.
Import Py Tres Spec Names.

Lemma hex_length bs : length (hex bs) = (2 * length bs)%nat.
Proof.
  unfold hex. induction bs as [|b bs IH]; [done|].
  cbn [mbind list_bind app length] in *. rewrite IH. lia.
Qed.

Lemma hex_digit_is_hex n : (n < 16)%N → is_lower_hex (hex_digit n) = true.
Proof.
  intros Hn. unfold hex_digit, is_lower_hex.
  destruct (N.ltb_spec n 10).
  - apply orb_true_iff. left. apply andb_true_iff.
    rewrite !N.leb_le. lia.
  - apply orb_true_iff. right. apply andb_true_iff.
    rewrite !N.leb_le. lia.
Qed.

Lemma hex_chars bs : Forall (λ c, is_lower_hex c = true) (hex bs).
Proof.
  unfold hex. induction bs as [|b bs IH]; [done|].
  cbn [mbind list_bind]. apply Forall_app. split; [|exact IH].
  pose proof (Byte.to_N_bounded b) as Hb. cbv zeta.
  repeat constructor; apply hex_digit_is_hex.
  - apply N.Div0.div_lt_upper_bound. lia.
  - apply N.mod_lt. done.
Qed.

(** X13: the identifiers of a generated document are lowercase
    hexadecimal of fixed length, read from three consecutive stretches of
    the entropy tape: the image resource id is [1_] followed by 10
    digits, the two uids are 24 digits each; and the external reference
    and every sub-resource block use that one resource id. *)
Theorem X13_identifiers_are_hex (image_filename : str) (fw fh fc cc : Z)
    (w : world) :
  cc ≠ 0 →
  ∃ h_id h_uid1 h_uid2,
    (generate_godot_tres_content image_filename fw fh fc cc w).2 =
      Ok (gd_resource_line (fc + 2) h_uid1 ++
          ext_resource_line h_uid2 image_filename (lit "1_" ++ h_id) ++
          concat (frame_block (lit "1_" ++ h_id) fw fh cc <$> range fc) ++
          resource_block fc) ∧
    h_id = hex (entropy_at w (cursor w) 5) ∧
    h_uid1 = hex (entropy_at w (cursor w + 5) 12) ∧
    h_uid2 = hex (entropy_at w (cursor w + 17) 12) ∧
    length h_id = 10%nat ∧ length h_uid1 = 24%nat ∧ length h_uid2 = 24%nat ∧
    Forall (λ c, is_lower_hex c = true) (h_id ++ h_uid1 ++ h_uid2).
Proof.
  intros Hcc. eexists _, _, _.
  rewrite (generate_document image_filename fw fh fc cc w Hcc). cbn [snd].
  split; [reflexivity|]. split; [reflexivity|]. split; [reflexivity|].
  split; [reflexivity|].
  unfold entropy_at. rewrite !hex_length, !length_fmap, !length_seq.
  split; [done|]. split; [done|]. split; [done|].
  rewrite !Forall_app. repeat split; apply hex_chars.
Qed.

Lemma digit_codes_digits d : Forall (λ c, is_digit c = true) (digit_codes d).
Proof. induction d; cbn [digit_codes]; by constructor. Qed.

Lemma str_of_int_inj a b : str_of_int a = str_of_int b → a = b.
Proof.
  unfold str_of_int. intros Heq. apply DecimalZ.to_int_inj.
  destruct (Z.to_int a) as [d|d], (Z.to_int b) as [d'|d'].
  - by apply digit_codes_inj in Heq as ->.
  - pose proof (digit_codes_digits d) as Hd. rewrite Heq in Hd.
    by apply Forall_cons_1 in Hd as [? _].
  - pose proof (digit_codes_digits d') as Hd. rewrite <- Heq in Hd.
    by apply Forall_cons_1 in Hd as [? _].
  - injection Heq as Heq. by apply digit_codes_inj in Heq as ->.
Qed.

Lemma range_NoDup n : NoDup (range n).
Proof.
  unfold range. apply NoDup_fmap_2; [|apply NoDup_seq].
  intros a b Hab. lia.
Qed.

Lemma decimal_value_acc d acc :
  foldl (λ a c, a * 10 + (Z.of_N c - 48)) (Z.pos acc) (digit_codes d) =
  Z.pos (Pos.of_uint_acc d acc).
Proof.
  revert acc. induction d; intros acc; cbn [digit_codes foldl Pos.of_uint_acc];
    [done|..]; rewrite <- IHd; f_equal; lia.
Qed.

Lemma decimal_value_digits d : decimal_value (digit_codes d) = Z.of_uint d.
Proof.
  unfold decimal_value, Z.of_uint.
  induction d; cbn [digit_codes foldl Pos.of_uint]; [done|exact IHd|..];
    match goal with
    | |- foldl _ ?z _ = _ =>
        let p := eval cbv in (Z.to_pos z) in
        change z with (Z.pos p); by rewrite decimal_value_acc
    end.
Qed.

(** X15: the index field of a file name is a decimal round trip.  For a
    non-negative index the zero-padded field is the index's decimal
    digits after [number_padding - len] zeros (none when the digits are
    at least that many: it is never cut), it consists of decimal digits
    only, it is at least [number_padding] long, and read as a decimal
    number it gives the index back. *)
Theorem X15_index_field_round_trip (i : Z) (pad : nat) :
  0 ≤ i →
  format_zero_padded i pad =
    replicate (pad - length (str_of_int i)) 48%N ++ str_of_int i ∧
  str_of_int i ≠ [] ∧
  Forall (λ c, is_digit c = true) (format_zero_padded i pad) ∧
  length (format_zero_padded i pad) = (pad `max` length (str_of_int i))%nat ∧
  decimal_value (format_zero_padded i pad) = i ∧
  decimal_value (str_of_int i) = i.
Proof.
  intros Hi. unfold format_zero_padded, str_of_int, zero_fill.
  destruct (to_int_nonneg i Hi) as (d & Hd & Hval). rewrite Hd.
  split; [done|]. split.
  { destruct i as [|p|p]; [| |lia]; cbn in Hd; injection Hd as <-; [done|].
    pose proof (DecimalPos.Unsigned.to_uint_nonnil p) as Hnn.
    by destruct (Pos.to_uint p). }
  split.
  { apply Forall_app. split; [|apply digit_codes_digits].
    by apply Forall_replicate. }
  split; [rewrite length_app, length_replicate; lia|].
  rewrite <- digit_codes_iter_D0, !decimal_value_digits.
  by rewrite of_uint_iter_D0_head.
Qed.

End NameFacts.

(** ** Identifiers within a document *)

Section BlockFacts.
Import Py Tres Spec Names Blocks.

Local Arguments lit : simpl never.
Local Arguments str_of_int : simpl never.

Lemma frame_block_atlas id fw fh cc i :
  frame_block id fw fh cc i =
  atlas_block id (atlas_id (i + 1)) (frame_rect fw fh cc i).
Proof.
  unfold frame_block, sub_resource_block, atlas_block, frame_rect, atlas_id.
  by rewrite <- !app_assoc.
Qed.

Lemma frame_entry_atlas i : frame_entry i = animation_entry (atlas_id (i + 1)).
Proof. unfold frame_entry, animation_entry, atlas_id. by rewrite <- !app_assoc. Qed.

Lemma atlas_id_inj i j : atlas_id i = atlas_id j → i = j.
Proof.
  unfold atlas_id. intros Heq. by apply app_inv_head, str_of_int_inj in Heq.
Qed.

Lemma range_lookup_Some n (i : nat) z :
  range n !! i = Some z ↔ z = Z.of_nat i ∧ (i < Z.to_nat n)%nat.
Proof.
  unfold range. rewrite list_lookup_fmap, fmap_Some. split.
  - intros (k & [-> Hk]%lookup_seq & ->). done.
  - intros [-> Hi]. exists i. split; [|done]. by apply lookup_seq.
Qed.

Lemma frame_rect_lookup fw fh fc cc (i : nat) r :
  (frame_rect fw fh cc <$> range fc) !! i = Some r ↔
  r = frame_rect fw fh cc (Z.of_nat i) ∧ (i < Z.to_nat fc)%nat.
Proof.
  rewrite list_lookup_fmap, fmap_Some. split.
  - by intros (z & [-> Hi]%range_lookup_Some & ->).
  - intros [-> Hi]. exists (Z.of_nat i). split; [|done].
    by apply range_lookup_Some.
Qed.

(** The blocks of a document as identifiers zipped with rectangles. *)
Lemma frame_blocks_zip id fw fh cc (indices : list Z) :
  frame_block id fw fh cc <$> indices =
  zip_with (atlas_block id) ((λ i, atlas_id (i + 1)) <$> indices)
    (frame_rect fw fh cc <$> indices).
Proof.
  rewrite zip_with_fmap_l, zip_with_fmap_r, zip_with_diag.
  apply list_fmap_ext. intros _ i _. apply frame_block_atlas.
Qed.

Lemma resource_block_entries fc :
  resource_block fc =
  animation_block (animation_entry <$> ((λ i, atlas_id (i + 1)) <$> range fc)).
Proof.
  unfold resource_block, animation_block.
  rewrite <- list_fmap_compose.
  by rewrite (list_fmap_ext frame_entry
                (animation_entry ∘ (λ i, atlas_id (i + 1))) (range fc)
                (λ _ i _, frame_entry_atlas i)).
Qed.

(** X14: in the document the generator returns, the sub-resource blocks
    declare the identifiers [AtlasTexture_1], [AtlasTexture_2], ... in
    emission order, one block per frame; no two blocks declare the same
    identifier; and the frame list of the animation refers to exactly
    these identifiers, in the same order. *)
Theorem X14_sub_resource_ids_are_unique (image_filename : str)
    (fw fh fc cc : Z) (w : world) :
  cc ≠ 0 →
  ∃ (id uid1 uid2 : str) (ids : list str) (rects : list (Z * Z * Z * Z)),
    (generate_godot_tres_content image_filename fw fh fc cc w).2 =
      Ok (gd_resource_line (fc + 2) uid1 ++
          ext_resource_line uid2 image_filename id ++
          concat (zip_with (atlas_block id) ids rects) ++
          animation_block (animation_entry <$> ids)) ∧
    length ids = Z.to_nat fc ∧ length rects = Z.to_nat fc ∧
    NoDup ids ∧
    ∀ i, 0 ≤ i < fc →
      ids !! Z.to_nat i = Some (lit "AtlasTexture_" ++ str_of_int (i + 1)).
Proof.
  intros Hcc.
  exists (lit "1_" ++ hex (entropy_at w (cursor w) 5)),
    (hex (entropy_at w (cursor w + 5) 12)),
    (hex (entropy_at w (cursor w + 17) 12)),
    ((λ i, atlas_id (i + 1)) <$> range fc),
    (frame_rect fw fh cc <$> range fc).
  rewrite (generate_document image_filename fw fh fc cc w Hcc). cbn [snd].
  rewrite frame_blocks_zip, resource_block_entries.
  split; [done|].
  rewrite !length_fmap, range_length.
  split; [done|]. split; [done|]. split.
  - apply NoDup_fmap_2; [|apply range_NoDup].
    intros i j Heq%atlas_id_inj. lia.
  - intros i Hi. by rewrite list_lookup_fmap, (range_lookup fc i Hi).
Qed.

End BlockFacts.

(** ** The file names *)

Section FileNameFacts.
Import Py Tres Spec Names.

Lemma nzhead_no_leading_zero d d' : Decimal.nzhead d ≠ Decimal.D0 d'.
Proof. induction d; cbn [Decimal.nzhead]; done. Qed.

Lemma to_uint_no_leading_zero p d : Pos.to_uint p ≠ Decimal.D0 d.
Proof.
  intros Heq.
  pose proof (DecimalPos.Unsigned.to_of (Pos.to_uint p)) as Hnorm.
  rewrite DecimalPos.Unsigned.of_to in Hnorm. cbn [N.to_uint] in Hnorm.
  rewrite Heq in Hnorm. rewrite unorm_D0 in Hnorm.
  unfold Decimal.unorm in Hnorm.
  destruct (Decimal.nzhead d) eqn:Hnz;
    try (by eapply (nzhead_no_leading_zero d); rewrite Hnz; symmetry; exact Hnorm);
    try (by rewrite <- Hnz in Hnorm; discriminate Hnorm).
  injection Hnorm as ->.
  by apply (DecimalPos.Unsigned.to_uint_nonzero p).
Qed.

(** The decimal digits of a positive number: digits only, no leading
    zero, and read back they give the number. *)
Lemma str_of_int_positive i :
  1 ≤ i →
  Forall (λ c, is_digit c = true) (str_of_int i) ∧
  head (str_of_int i) ≠ Some 48%N ∧
  str_of_int i ≠ [] ∧
  decimal_value (str_of_int i) = i.
Proof.
  intros Hi. destruct i as [|p|p]; [lia| |lia].
  unfold str_of_int. cbn [Z.to_int].
  split; [apply digit_codes_digits|]. split; [|split].
  - pose proof (to_uint_no_leading_zero p) as Hz.
    destruct (Pos.to_uint p); cbn [digit_codes head]; try done.
    by specialize (Hz u).
  - pose proof (DecimalPos.Unsigned.to_uint_nonnil p) as Hnn.
    by destruct (Pos.to_uint p).
  - rewrite decimal_value_digits.
    pose proof (DecimalZ.of_to (Z.pos p)) as Hof. exact Hof.
Qed.

Lemma format_zero_padded_digits i pad :
  0 ≤ i →
  format_zero_padded i pad =
  replicate (pad - length (str_of_int i)) 48%N ++ str_of_int i.
Proof.
  intros Hi. unfold format_zero_padded, str_of_int, zero_fill.
  by destruct (to_int_nonneg i Hi) as (d & -> & _).
Qed.

Lemma os_path_join_relative a b :
  starts_with_sep b = false → a ≠ [] → ends_with_sep a = false →
  os_path_join a b = a ++ lit "/" ++ b.
Proof.
  intros Hb Ha Hsep. unfold os_path_join. rewrite Hb, Hsep.
  by rewrite bool_decide_eq_false_2.
Qed.

End FileNameFacts.

(** * The claim about the file name *)

Section FileNameClaim.
Import Py Tres Spec Names.

(** C7: with a non-zero column count the node, given fuel for the scan,
    writes to the path of the least index [k >= 1] whose
    [{prefix}_{k zero-padded}.tres] does not exist once the directory is
    there; that path held nothing before, every entry that existed is
    left as it was, and the document written refers to the image file
    [{base_name}.png] of the same base name.  When no candidate name is
    taken at first, two successive calls with the same arguments write two
    different files, for index 1 and then index 2, and the first file is
    still there after the second call; with a padding of one these are
    [{prefix}_1] and [{prefix}_2].  The names are spelled out: for every
    index [i >= 1] there are the decimal digits of [i] (digits only, no
    leading zero, denoting [i]); the index field is these digits after
    [number_padding - len(digits)] zeros, never cut; the base name is the
    prefix, an underscore and the field; the image name is the base name
    followed by [.png]; and the path is [os.path.join] of the resolved
    directory with the base name followed by [.tres], which is
    [{directory}/{prefix}_{field}.tres] when the prefix does not start
    with a separator and the directory is not empty and does not end with
    one. *)
Theorem C7_fresh_file_name (fw fh fc cc : Z) (prefix dir : str) (pad : nat)
    (w : world) :
  cc ≠ 0 →
  let target_dir := resolve_target_dir dir w in
  let w1 := prepared dir w in
  let path_at := tres_path_at target_dir prefix pad in
  let name_at := base_name_at prefix pad in
  (∃ k, 1 ≤ k ∧
     os_path_exists w1 (path_at k) = false ∧
     (∀ j, 1 ≤ j < k → os_path_exists w1 (path_at j) = true) ∧
     ∀ fuel, (Z.to_nat k ≤ fuel)%nat →
       ∃ w',
         create_tres_file fuel fw fh fc cc prefix dir pad w =
           Some (w', Ok (path_at k)) ∧
         fs w !! path_at k = None ∧
         fs w' !! path_at k =
           Some (File (document (name_at k ++ lit ".png") fw fh fc cc w1)) ∧
         (∀ p, is_Some (fs w !! p) → fs w' !! p = fs w !! p)) ∧
  ((∀ j, 1 ≤ j → os_path_exists w1 (path_at j) = false) →
   ∀ fuel, (2 ≤ fuel)%nat →
     ∃ w' w'' first_text second_text,
       create_tres_file fuel fw fh fc cc prefix dir pad w =
         Some (w', Ok (path_at 1)) ∧
       create_tres_file fuel fw fh fc cc prefix dir pad w' =
         Some (w'', Ok (path_at 2)) ∧
       path_at 1 ≠ path_at 2 ∧
       fs w' !! path_at 1 = Some (File first_text) ∧
       fs w'' !! path_at 1 = Some (File first_text) ∧
       fs w'' !! path_at 2 = Some (File second_text)) ∧
  (base_name_at prefix 1 1 = prefix ++ lit "_1" ∧
   base_name_at prefix 1 2 = prefix ++ lit "_2" ∧
   tres_path_at target_dir prefix 1 1 =
     os_path_join target_dir (prefix ++ lit "_1.tres") ∧
   tres_path_at target_dir prefix 1 2 =
     os_path_join target_dir (prefix ++ lit "_2.tres")) ∧
  (∀ i, 1 ≤ i →
     ∃ digits,
       Forall (λ c, is_digit c = true) digits ∧
       head digits ≠ Some 48%N ∧ digits ≠ [] ∧
       decimal_value digits = i ∧
       let field := replicate (pad - length digits) 48%N ++ digits in
       name_at i = prefix ++ lit "_" ++ field ∧
       name_at i ++ lit ".png" = prefix ++ lit "_" ++ field ++ lit ".png" ∧
       path_at i =
         os_path_join target_dir (prefix ++ lit "_" ++ field ++ lit ".tres") ∧
       (starts_with_sep prefix = false → target_dir ≠ [] →
        ends_with_sep target_dir = false →
        path_at i =
          target_dir ++ lit "/" ++ prefix ++ lit "_" ++ field ++ lit ".tres")).
Proof.
  intros Hcc. cbv zeta.
  split; [|split; [|split]].
  - destruct (least_free_path dir prefix pad w) as (k & Hk & Hfree & Htaken).
    exists k. split; [done|]. split; [done|]. split; [done|].
    intros fuel Hfuel.
    pose proof (scan_names_stops _ _ prefix pad fuel 1 k ltac:(lia) Htaken Hfree
                  ltac:(lia)) as Hscan.
    eexists. split.
    { apply (create_tres_file_scanned fuel fw fh fc cc prefix dir pad w k _ _
               Hcc Hscan). }
    apply os_path_exists_false in Hfree.
    assert (fs w !! tres_path_at (resolve_target_dir dir w) prefix pad k = None)
      as Hnone.
    { destruct (fs w !! tres_path_at (resolve_target_dir dir w) prefix pad k)
        eqn:Hl; [|done].
      rewrite <- Hfree, <- Hl. symmetry. apply prepared_keeps. by rewrite Hl. }
    split; [done|]. split.
    { unfold written. cbn [fs]. by rewrite lookup_insert_eq. }
    intros p Hp. unfold written. cbn [fs].
    rewrite lookup_insert_ne.
    + by apply prepared_keeps.
    + intros <-. rewrite Hnone in Hp. by destruct Hp.
  - intros Hempty fuel Hfuel.
    assert (tres_path_at (resolve_target_dir dir w) prefix pad 1 ≠
            tres_path_at (resolve_target_dir dir w) prefix pad 2) as Hne.
    { intros Heq%tres_path_at_inj; lia. }
    pose proof (scan_names_stops _ _ prefix pad fuel 1 1 ltac:(lia)
                  ltac:(intros; lia) (Hempty 1 ltac:(lia)) ltac:(lia)) as Hscan1.
    pose proof (create_tres_file_scanned fuel fw fh fc cc prefix dir pad w 1 _ _
                  Hcc Hscan1) as Hcall1.
    remember (document (base_name_at prefix pad 1 ++ lit ".png") fw fh fc cc
                (prepared dir w)) as text1 eqn:Htext1.
    remember (written (tres_path_at (resolve_target_dir dir w) prefix pad 1)
                text1 (prepared dir w)) as w' eqn:Hw'.
    assert (fs w' = <[tres_path_at (resolve_target_dir dir w) prefix pad 1 :=
                        File text1]> (fs (prepared dir w))) as Hfs'.
    { by rewrite Hw'. }
    assert (resolve_target_dir dir w' = resolve_target_dir dir w) as Htarget.
    { apply resolve_target_dir_base. rewrite Hw'. unfold written. cbn [base_path].
      apply prepared_base_path. }
    assert (prepared dir w' = w') as Hprep.
    { apply prepared_idle. rewrite Htarget, Hfs'.
      rewrite lookup_insert_ne; [apply prepared_target_exists|].
      intros Heq. pose proof (prepared_target_exists dir w) as [nd Hl].
      pose proof (Hempty 1 ltac:(lia)) as Hfree%os_path_exists_false.
      rewrite <- Heq in Hl. congruence. }
    assert (os_path_exists w'
              (tres_path_at (resolve_target_dir dir w) prefix pad 1) = true)
      as Htaken1.
    { apply os_path_exists_true. rewrite Hfs'. by rewrite lookup_insert_eq. }
    assert (os_path_exists w'
              (tres_path_at (resolve_target_dir dir w) prefix pad 2) = false)
      as Hfree2.
    { apply os_path_exists_false. rewrite Hfs'.
      rewrite lookup_insert_ne by done.
      by apply os_path_exists_false, Hempty. }
    pose proof (scan_names_stops (os_path_exists w') (resolve_target_dir dir w)
                  prefix pad fuel 1 2 ltac:(lia)
                  ltac:(intros j Hj; by replace j with 1 by lia)
                  Hfree2 ltac:(lia)) as Hscan2.
    rewrite <- Hprep in Hscan2 at 1. rewrite <- Htarget in Hscan2.
    pose proof (create_tres_file_scanned fuel fw fh fc cc prefix dir pad w' 2 _ _
                  Hcc Hscan2) as Hcall2.
    rewrite Hprep, Htarget in Hcall2.
    eexists w', _, text1, _.
    split; [exact Hcall1|]. split; [exact Hcall2|]. split; [done|].
    split; [|split].
    + rewrite Hfs'. by rewrite lookup_insert_eq.
    + unfold written at 1. cbn [fs]. rewrite lookup_insert_ne by done.
      rewrite Hfs'. by rewrite lookup_insert_eq.
    + unfold written at 1. cbn [fs]. by rewrite lookup_insert_eq.
  - split; [done|]. split; [done|].
    unfold tres_path_at, base_name_at. cbv zeta.
    by rewrite <- !app_assoc.
  - intros i Hi. exists (str_of_int i).
    destruct (str_of_int_positive i Hi) as (Hdigits & Hhead & Hnn & Hval).
    split; [done|]. split; [done|]. split; [done|]. split; [done|].
    assert (base_name_at prefix pad i =
            prefix ++ lit "_" ++
            replicate (pad - length (str_of_int i)) 48%N ++ str_of_int i) as Hname.
    { unfold base_name_at. by rewrite format_zero_padded_digits by lia. }
    assert (base_name_at prefix pad i ++ lit ".tres" =
            prefix ++ lit "_" ++
            (replicate (pad - length (str_of_int i)) 48%N ++ str_of_int i) ++
            lit ".tres") as Hfile.
    { rewrite Hname. by rewrite <- !app_assoc. }
    split; [done|]. split.
    { rewrite Hname. by rewrite <- !app_assoc. }
    unfold tres_path_at. cbv zeta. rewrite Hfile.
    split; [done|].
    intros Hprefix Hdir Hsep. apply os_path_join_relative; [|done|done].
    destruct prefix; [done|exact Hprefix].
Qed.

End FileNameClaim.

(** ** The file names on the sample world *)

Section FileNameRuns.
Import Py Tres Spec Samples Names.

(** In the sample world no candidate name is taken. *)
Lemma fresh_world_has_no_candidate j :
  os_path_exists (prepared (lit "out") fresh_world)
    (tres_path_at (resolve_target_dir (lit "out") fresh_world) (lit "anim") 2 j)
  = false.
Proof.
  apply os_path_exists_false.
  change (resolve_target_dir (lit "out") fresh_world) with (lit "/base/out").
  change (fs (prepared (lit "out") fresh_world))
    with (<[lit "/base/out" := Dir]> (∅ : gmap str node)).
  rewrite lookup_insert_ne; [apply lookup_empty|].
  change (tres_path_at (lit "/base/out") (lit "anim") 2 j)
    with (lit "/base/out" ++ lit "/" ++ base_name_at (lit "anim") 2 j ++ lit ".tres").
  intros Heq%(f_equal length). rewrite !length_app in Heq.
  cbn [length lit fmap list_fmap list_ascii_of_string] in Heq. lia.
Qed.

(** With the default padding of one, two calls against the empty
    directory write [anim_1.tres] and then [anim_2.tres]. *)
Example padding_one_first_call :
  snd <$> create_tres_file 1 64 64 4 2 (lit "anim") (lit "out") 1 fresh_world =
  Some (Ok (lit "/base/out/anim_1.tres")).
Proof. vm_compute. reflexivity. Qed.

Example padding_one_second_call :
  (w' ← fst <$> create_tres_file 1 64 64 4 2 (lit "anim") (lit "out") 1 fresh_world;
   snd <$> create_tres_file 2 64 64 4 2 (lit "anim") (lit "out") 1 w') =
  Some (Ok (lit "/base/out/anim_2.tres")).
Proof. vm_compute. reflexivity. Qed.

(** An index with more digits than the padding is not cut. *)
Example wide_index_name :
  tres_path_at (lit "/base/out") (lit "anim") 2 123 = lit "/base/out/anim_123.tres".
Proof. vm_compute. reflexivity. Qed.

Lemma C7_witness :
  2 ≠ 0 ∧
  (∃ w' w'',
     create_tres_file 2 64 64 4 2 (lit "anim") (lit "out") 2 fresh_world =
       Some (w', Ok (lit "/base/out/anim_01.tres")) ∧
     create_tres_file 2 64 64 4 2 (lit "anim") (lit "out") 2 w' =
       Some (w'', Ok (lit "/base/out/anim_02.tres")) ∧
     fs fresh_world !! lit "/base/out/anim_01.tres" = None ∧
     fs w' !! lit "/base/out/anim_01.tres" =
       Some (File (document (lit "anim_01.png") 64 64 4 2
                     (prepared (lit "out") fresh_world))) ∧
     is_Some (fs w'' !! lit "/base/out/anim_01.tres") ∧
     is_Some (fs w'' !! lit "/base/out/anim_02.tres")) ∧
  (∃ digits,
     decimal_value digits = 1 ∧ head digits ≠ Some 48%N ∧
     lit "/base/out/anim_01.tres" =
       lit "/base/out" ++ lit "/" ++ lit "anim" ++ lit "_" ++
       (replicate (2 - length digits) 48%N ++ digits) ++ lit ".tres").
Proof.
  split; [lia|].
  pose proof (C7_fresh_file_name 64 64 4 2 (lit "anim") (lit "out") 2 fresh_world
                ltac:(lia)) as Hw.
  cbv zeta in Hw.
  destruct Hw as ((k & Hk & Hfree & Htaken & Hcall) & Htwice & _ & Hnames).
  assert (k = 1) as ->.
  { destruct (decide (k = 1)) as [Heq|Hne]; [exact Heq|].
    pose proof (Htaken 1 ltac:(lia)) as Hex.
    rewrite fresh_world_has_no_candidate in Hex. discriminate Hex. }
  destruct (Hcall 2%nat ltac:(lia)) as (w1 & Hret & Hnone & Hfile & _).
  destruct (Htwice (λ j _, fresh_world_has_no_candidate j) 2%nat ltac:(lia))
    as (w' & w'' & text1 & text2 & Hcall1 & Hcall2 & _ & _ & Hkept & Hsecond).
  assert (w1 = w') as ->.
  { rewrite Hret in Hcall1. by injection Hcall1. }
  split.
  - exists w', w''.
    split; [exact Hcall1|]. split; [exact Hcall2|]. split; [exact Hnone|].
    split; [exact Hfile|].
    split; [exists (File text1); exact Hkept | exists (File text2); exact Hsecond].
  - destruct (Hnames 1 ltac:(lia)) as (digits & _ & Hhead & _ & Hval & _ & _ & _ & Hpath).
    exists digits. split; [exact Hval|]. split; [exact Hhead|].
    exact (Hpath eq_refl ltac:(discriminate) eq_refl).
Defined.

End FileNameRuns.

(** ** The declared inputs of the two nodes *)

From stdpp Require Import strings.

Open Scope Z_scope.

Module Declared.
Import Py.

(** A value of an option dictionary. *)
Inductive option_value := VInt (z : Z) | VStr (s : str) | VBool (b : bool).

(** One declared input: its type name and, when given, its options. *)
Record input_decl := InputDecl {
  decl_type : string;
  decl_options : option (gmap string option_value)
}.

(** [CreateSpriteSheetImageNode.INPUT_TYPES()] *)
Definition sprite_INPUT_TYPES : gmap string (gmap string input_decl) :=
  {[ "required"%string :=
       {[ "images"%string := InputDecl "IMAGE" None;
          "column_count"%string :=
            InputDecl "INT"
              (Some {[ "default"%string := VInt 8; "min"%string := VInt 1;
                       "max"%string := VInt 1024 ]});
          "row_count"%string :=
            InputDecl "INT"
              (Some {[ "default"%string := VInt 0; "min"%string := VInt 0;
                       "max"%string := VInt 1024 ]}) ]} ]}.

(** [CreateGodotTresFileNode.INPUT_TYPES()] *)
Definition tres_INPUT_TYPES : gmap string (gmap string input_decl) :=
  {[ "required"%string :=
       {[ "frame_width"%string :=
            InputDecl "INT"
              (Some {[ "default"%string := VInt 256; "min"%string := VInt 1 ]});
          "frame_height"%string :=
            InputDecl "INT"
              (Some {[ "default"%string := VInt 256; "min"%string := VInt 1 ]});
          "frame_count"%string :=
            InputDecl "INT"
              (Some {[ "default"%string := VInt 12; "min"%string := VInt 1 ]});
          "column_count"%string :=
            InputDecl "INT"
              (Some {[ "default"%string := VInt 8; "min"%string := VInt 1 ]});
          "filename_prefix"%string :=
            InputDecl "STRING"
              (Some {[ "default"%string := VStr (lit "spritesheet") ]});
          "save_directory_path"%string :=
            InputDecl "STRING"
              (Some {[ "default"%string := VStr (lit "output");
                       "multiline"%string := VBool false ]});
          "number_padding"%string :=
            InputDecl "INT"
              (Some {[ "default"%string := VInt 1; "min"%string := VInt 1;
                       "max"%string := VInt 8 ]}) ]} ]}.

(** An integer that respects the declaration of the required input
    [name]: the input is declared with type [INT], and the value is not
    below the declared minimum nor above the declared maximum, where
    these are given. *)
Definition declared_int (types : gmap string (gmap string input_decl))
    (name : string) (v : Z) : bool :=
  match types !! "required"%string ≫= (λ required, required !! name) with
  | Some d =>
      if decide (decl_type d = "INT"%string) then
        match decl_options d with
        | Some options =>
            match options !! "min"%string with
            | Some (VInt m) => m <=? v
            | _ => true
            end &&
            match options !! "max"%string with
            | Some (VInt m) => v <=? m
            | _ => true
            end
        | None => true
        end
      else false
  | None => false
  end.

End Declared.

Section DeclaredFacts.
Import Py PIL Packer Tres Spec Names Blocks Declared.

Lemma declared_sprite_column_count v :
  declared_int sprite_INPUT_TYPES "column_count" v = true ↔ 1 ≤ v ≤ 1024.
Proof.
  change (declared_int sprite_INPUT_TYPES "column_count" v)
    with ((1 <=? v) && (v <=? 1024)).
  rewrite andb_true_iff, !Z.leb_le. done.
Qed.

Lemma declared_sprite_row_count v :
  declared_int sprite_INPUT_TYPES "row_count" v = true ↔ 0 ≤ v ≤ 1024.
Proof.
  change (declared_int sprite_INPUT_TYPES "row_count" v)
    with ((0 <=? v) && (v <=? 1024)).
  rewrite andb_true_iff, !Z.leb_le. done.
Qed.


Lemma declared_tres_number_padding v :
  declared_int tres_INPUT_TYPES "number_padding" v = true ↔ 1 ≤ v ≤ 8.
Proof.
  change (declared_int tres_INPUT_TYPES "number_padding" v)
    with ((1 <=? v) && (v <=? 8)).
  rewrite andb_true_iff, !Z.leb_le. done.
Qed.


(** X17: within the ranges the packer node declares ([column_count] from
    1 to 1024, [row_count] from 0 to 1024) the column count is used as
    given; a row count of zero, the declared default, selects automatic
    rows, under which the capacity covers every frame; any other row
    count is used as given. *)
Theorem X17_declared_layout {F : Type} `{NumericRuntime F} (t : tensor F)
    (cc rc : Z) first rest :
  declared_int sprite_INPUT_TYPES "column_count" cc = true →
  declared_int sprite_INPUT_TYPES "row_count" rc = true →
  tensor_to_pil t = first :: rest →
  let g := grid_layout first rest cc rc in
  column_count g = cc ∧
  (rc = 0 →
     row_count g = (frame_count g + cc - 1) / cc ∧
     frame_count g ≤ column_count g * row_count g) ∧
  (rc ≠ 0 → row_count g = rc) ∧
  width (compose g (first :: rest)) = frame_width g * cc ∧
  height (compose g (first :: rest)) = frame_height g * row_count g.
Proof.
  intros Hcc%declared_sprite_column_count Hrc%declared_sprite_row_count Hd g.
  assert (column_count g = cc) as Hcol.
  { unfold g. cbn [grid_layout column_count]. destruct (Z.leb_spec cc 0); lia. }
  split; [done|]. split; [|split; [|split]].
  - intros ->.
    assert (row_count g = (frame_count g + cc - 1) / cc) as Hrow.
    { unfold g. cbn [grid_layout row_count frame_count Z.leb].
      by destruct (Z.leb_spec cc 0); [lia|]. }
    split; [done|].
    pose proof (ceil_div_spec (frame_count g) cc ltac:(lia)) as Hceil.
    cbv zeta in Hceil. rewrite <- Hrow in Hceil. rewrite Hcol. lia.
  - intros Hne. unfold g. cbn [grid_layout row_count].
    destruct (Z.leb_spec rc 0); [lia|done].
  - destruct (paste_frames_shape g 0 (first :: rest) (blank_grid g))
      as (_ & Hw & _).
    unfold compose. rewrite Hw. cbn [blank_grid new width fst]. by rewrite Hcol.
  - destruct (paste_frames_shape g 0 (first :: rest) (blank_grid g))
      as (_ & _ & Hh).
    unfold compose. by rewrite Hh.
Qed.

End DeclaredFacts.

(** ** The packer's output under the writer's rectangles *)

Section PackerAndWriter.
Import Py PIL Packer Tres Spec Names Blocks.
Context {F : Type} `{NumericRuntime F}.

Lemma create_sprite_sheet_returns (t : tensor F) cc rc out fw fh fc :
  create_sprite_sheet t cc rc = Ok (out, fw, fh, fc) →
  ∃ first rest,
    tensor_to_pil t = first :: rest ∧
    out = to_tensor (compose (grid_layout first rest cc rc) (first :: rest)) ∧
    fw = frame_width (grid_layout first rest cc rc) ∧
    fh = frame_height (grid_layout first rest cc rc) ∧
    fc = frame_count (grid_layout first rest cc rc).
Proof.
  unfold create_sprite_sheet.
  destruct (tensor_to_pil t) as [|first rest]; [done|].
  intros Hret. exists first, rest. split; [done|].
  by injection Hret as <- <- <- <-.
Qed.

(** The output tensor inside the cell of a placed frame. *)
Lemma output_cell_value (t : tensor F) cc rc first rest (i y x c b : nat) :
  tensor_to_pil t = first :: rest →
  (i < t_batch t)%nat → (y < t_rows t)%nat → (x < t_cols t)%nat →
  Z.of_nat i <
    column_count (grid_layout first rest cc rc) *
    row_count (grid_layout first rest cc rc) →
  t_at (to_tensor (compose (grid_layout first rest cc rc) (first :: rest))) b
    (Z.to_nat (cell_origin (grid_layout first rest cc rc) (Z.of_nat i)).2 + y)
    (Z.to_nat (cell_origin (grid_layout first rest cc rc) (Z.of_nat i)).1 + x) c =
  normalize
    (if (t_chans t =? 4)%nat
     then BLEND8 (quantize (t_at t i y x 3)) 0 (quantize (t_at t i y x c))
     else if (c <? 3)%nat then quantize (t_at t i y x c) else 255).
Proof.
  intros Hd Hi Hy Hx Hcap.
  set (g := grid_layout first rest cc rc) in *.
  set (o := cell_origin g (Z.of_nat i)).
  pose proof (tensor_to_pil_channels t first rest Hd) as Hc.
  pose proof (tensor_to_pil_lookup t i Hc Hi) as Hlook. rewrite Hd in Hlook.
  pose proof (grid_layout_column_count first rest cc rc) as [_ Hcc].
  pose proof (grid_layout_frame_bounds first rest cc rc) as Hfit.
  fold g in Hcc, Hfit.
  set (im := fromarray (frame_array t i) (batch_mode t)) in *.
  assert (0 ≤ o.1 ∧ 0 ≤ o.2) as [Ho1 Ho2].
  { unfold o, cell_origin. cbn [fst snd].
    pose proof (Z.mod_pos_bound (Z.of_nat i) (column_count g) ltac:(lia)).
    assert (0 ≤ Z.of_nat i / column_count g) by (apply Z.div_pos; lia).
    assert (0 ≤ frame_width g ∧ 0 ≤ frame_height g) as [? ?].
    { destruct (Hfit im (list_elem_of_lookup_2 _ _ _ Hlook)) as [Hw Hh].
      unfold im in Hw, Hh. cbn [fromarray width height] in Hw, Hh. lia. }
    split; nia. }
  cbn [to_tensor t_at asarray nd_at]. f_equal.
  replace (Z.of_nat (Z.to_nat o.1 + x)) with (o.1 + Z.of_nat x) by lia.
  replace (Z.of_nat (Z.to_nat o.2 + y)) with (o.2 + Z.of_nat y) by lia.
  unfold o.
  rewrite (compose_cell_value g (first :: rest) i im (Z.of_nat x) (Z.of_nat y) c
             Hcc Hfit Hlook Hcap); [|cbn; lia|cbn; lia].
  cbv zeta. unfold paste_mask, im, batch_mode.
  destruct Hc as [Hc | Hc]; rewrite Hc; cbn [Nat.eqb].
  - rewrite !decide_False by done.
    cbn [convert getband fromarray im_mode frame_array nd_at].
    by rewrite !Nat2Z.id.
  - rewrite !decide_True by done.
    cbn [split_band getband fromarray frame_array nd_at].
    by rewrite !Nat2Z.id.
Qed.

(** X18: packer and writer agree.  When the packer returns, with
    automatic rows and a column count of at least one, and the generator
    is given the three numbers the packer returned and the same column
    count, the document has one block per frame of the batch, and the
    rectangle of block [i] has the frame's size, lies inside the returned
    tensor, holds there exactly the values the packer wrote for frame [i]
    (the quantized frame over the transparent background), and does not
    overlap the rectangle of any other block. *)
Theorem X18_regions_hold_the_frames (t : tensor F) (cc rc : Z) (image_filename : str) (w : world)
    out fw fh fc :
  1 ≤ cc → rc ≤ 0 →
  create_sprite_sheet t cc rc = Ok (out, fw, fh, fc) →
  ∃ (id uid1 uid2 : str) (ids : list str) (rects : list (Z * Z * Z * Z)),
    (generate_godot_tres_content image_filename fw fh fc cc w).2 =
      Ok (gd_resource_line (fc + 2) uid1 ++
          ext_resource_line uid2 image_filename id ++
          concat (zip_with (atlas_block id) ids rects) ++
          animation_block (animation_entry <$> ids)) ∧
    length ids = t_batch t ∧ length rects = t_batch t ∧
    ∀ (i : nat) x y rw rh,
      rects !! i = Some (x, y, rw, rh) →
      ids !! i = Some (lit "AtlasTexture_" ++ str_of_int (Z.of_nat i + 1)) ∧
      rw = Z.of_nat (t_cols t) ∧ rh = Z.of_nat (t_rows t) ∧
      0 ≤ x ∧ 0 ≤ y ∧
      (Z.to_nat x + t_cols t ≤ t_cols out)%nat ∧
      (Z.to_nat y + t_rows t ≤ t_rows out)%nat ∧
      (∀ dy dx c b : nat,
         (dy < t_rows t)%nat → (dx < t_cols t)%nat →
         t_at out b (Z.to_nat y + dy) (Z.to_nat x + dx) c =
         normalize
           (if (t_chans t =? 4)%nat
            then BLEND8 (quantize (t_at t i dy dx 3)) 0
                   (quantize (t_at t i dy dx c))
            else if (c <? 3)%nat then quantize (t_at t i dy dx c) else 255)) ∧
      (∀ (j : nat) x' y' rw' rh',
         j ≠ i → rects !! j = Some (x', y', rw', rh') →
         x + rw ≤ x' ∨ x' + rw' ≤ x ∨ y + rh ≤ y' ∨ y' + rh' ≤ y).
Proof.
  intros Hcc Hrc Hret.
  destruct (create_sprite_sheet_returns t cc rc out fw fh fc Hret)
    as (first & rest & Hd & -> & -> & -> & ->).
  set (g := grid_layout first rest cc rc) in *.
  pose proof (tensor_to_pil_channels t first rest Hd) as Hc.
  pose proof (tensor_to_pil_length t Hc) as Hlen. rewrite Hd in Hlen.
  assert (frame_count g = Z.of_nat (t_batch t)) as Hcount.
  { unfold g. by rewrite grid_layout_frame_count, Hlen. }
  assert (column_count g = cc) as Hcol.
  { unfold g. cbn [grid_layout column_count]. destruct (Z.leb_spec cc 0); lia. }
  assert (row_count g = (frame_count g + cc - 1) / cc) as Hrow.
  { unfold g. cbn [grid_layout row_count frame_count].
    destruct (Z.leb_spec rc 0); [|lia]. by destruct (Z.leb_spec cc 0); [lia|]. }
  pose proof (ceil_div_spec (frame_count g) cc Hcc) as Hceil.
  cbv zeta in Hceil. rewrite <- Hrow in Hceil.
  destruct (tensor_frames_fill_cells t first rest cc rc first Hd ltac:(left))
    as [Hw Hh]. fold g in Hw, Hh.
  destruct (tensor_to_pil_frame t first ltac:(rewrite Hd; left))
    as (_ & Hw' & Hh').
  assert (frame_width g = Z.of_nat (t_cols t)) as Hfw by congruence.
  assert (frame_height g = Z.of_nat (t_rows t)) as Hfh by congruence.
  destruct (paste_frames_shape g 0 (first :: rest) (blank_grid g))
    as (_ & Hsw & Hsh).
  assert (t_cols (to_tensor (compose g (first :: rest))) =
          Z.to_nat (frame_width g * cc)) as Hcols.
  { cbn [to_tensor t_cols asarray nd_cols]. unfold compose. rewrite Hsw.
    cbn [blank_grid new width fst]. by rewrite Hcol. }
  assert (t_rows (to_tensor (compose g (first :: rest))) =
          Z.to_nat (frame_height g * row_count g)) as Hrows.
  { cbn [to_tensor t_rows asarray nd_rows]. unfold compose. by rewrite Hsh. }
  remember (frame_width g) as cell_w eqn:Hcell_w in *.
  remember (frame_height g) as cell_h eqn:Hcell_h in *.
  exists (lit "1_" ++ hex (entropy_at w (cursor w) 5)),
    (hex (entropy_at w (cursor w + 5) 12)),
    (hex (entropy_at w (cursor w + 17) 12)),
    ((λ i, atlas_id (i + 1)) <$> range (frame_count g)),
    (frame_rect cell_w cell_h cc <$> range (frame_count g)).
  rewrite (generate_document image_filename _ _ _ cc w ltac:(lia)). cbn [snd].
  rewrite frame_blocks_zip, resource_block_entries.
  rewrite !length_fmap, range_length, Hcount, Nat2Z.id.
  split; [done|]. split; [done|]. split; [done|].
  intros i x y rw rh [Hrect Hi]%frame_rect_lookup.
  rewrite Nat2Z.id in Hi. injection Hrect as -> -> -> ->.
  pose proof (Z.mod_pos_bound (Z.of_nat i) cc ltac:(lia)) as Hmod.
  assert (0 ≤ Z.of_nat i / cc) as Hdiv by (apply Z.div_pos; lia).
  assert (Z.of_nat i / cc < row_count g) as Hlast
    by (apply Z.div_lt_upper_bound; lia).
  split.
  { rewrite list_lookup_fmap.
    rewrite (proj2 (range_lookup_Some _ i (Z.of_nat i))); [done|].
    split; [done|]. lia. }
  split; [done|]. split; [done|].
  assert (0 ≤ cell_w ∧ 0 ≤ cell_h) as [Hw0 Hh0] by lia.
  split; [nia|]. split; [nia|].
  split; [rewrite Hcols; nia|]. split; [rewrite Hrows; nia|].
  split.
  - intros dy dx c b Hdy Hdx.
    pose proof (output_cell_value t cc rc first rest i dy dx c b Hd Hi Hdy Hdx)
      as Hpx.
    fold g in Hpx. unfold cell_origin in Hpx. cbn [fst snd] in Hpx.
    rewrite Hcol, <- Hcell_w, <- Hcell_h in Hpx. apply Hpx. lia.
  - intros j x' y' rw' rh' Hne [Hrect Hj]%frame_rect_lookup.
    injection Hrect as -> -> -> ->.
    pose proof (Z.mod_pos_bound (Z.of_nat j) cc ltac:(lia)) as Hmodj.
    destruct (Z.lt_trichotomy (Z.of_nat i mod cc) (Z.of_nat j mod cc))
      as [Hlt | [Heq | Hgt]]; [left; nia| |right; left; nia].
    destruct (Z.lt_trichotomy (Z.of_nat i / cc) (Z.of_nat j / cc))
      as [Hlt | [Heq' | Hgt]]; [right; right; left; nia| |right; right; right; nia].
    exfalso. apply Hne.
    pose proof (Z.div_mod (Z.of_nat i) cc ltac:(lia)).
    pose proof (Z.div_mod (Z.of_nat j) cc ltac:(lia)). nia.
Qed.

End PackerAndWriter.

(** ** The further properties on the sample inputs *)

Section ExtraRuns.
Import Py PIL Packer Tres Spec Samples Repeated Names Blocks Declared.

Lemma X1_witness :
  0 ≤ 0 ∧
  create_sprite_sheet (opaque_batch 3) 0 0 = create_sprite_sheet (opaque_batch 3) 1 0.
Proof.
  split; [lia|].
  exact (proj1 (X1_nonpositive_columns_mean_one (opaque_batch 3) 0 0 ltac:(lia))).
Defined.

Lemma X2_witness :
  tensor_to_pil (opaque_batch 10) =
    decoded_head (opaque_batch 10) RGB :: decoded_tail (opaque_batch 10) RGB ∧
  0 ≤ 0 ∧
  let g := grid_layout (decoded_head (opaque_batch 10) RGB)
             (decoded_tail (opaque_batch 10) RGB) 3 0 in
  frame_count g ≤ column_count g * row_count g ∧
  column_count g * row_count g - frame_count g < column_count g.
Proof.
  split; [reflexivity|]. split; [lia|]. cbv zeta.
  pose proof (X2_auto_rows_place_every_frame (opaque_batch 10) 3 0 _ _ eq_refl
                ltac:(lia)) as Hw.
  cbv zeta in Hw. destruct Hw as (Hcap & Hlast & _).
  split; [exact Hcap | exact Hlast].
Defined.

Lemma X3_witness :
  tensor_to_pil (opaque_batch 3) =
    decoded_head (opaque_batch 3) RGB :: decoded_tail (opaque_batch 3) RGB ∧
  let pil_images :=
    decoded_head (opaque_batch 3) RGB :: decoded_tail (opaque_batch 3) RGB in
  let g := grid_layout (decoded_head (opaque_batch 3) RGB)
             (decoded_tail (opaque_batch 3) RGB) 2 0 in
  ∀ c, getband (compose g pil_images) 2 2 c = 0.
Proof.
  split; [reflexivity|]. cbv zeta.
  pose proof (X3_uncovered_stays_transparent (opaque_batch 3) 2 0 _ _ eq_refl)
    as Hw.
  cbv zeta in Hw. destruct Hw as [_ Hcells].
  intros c.
  exact (Hcells 3 0 0 c ltac:(vm_compute; discriminate)
           ltac:(vm_compute; split; [discriminate | reflexivity])
           ltac:(vm_compute; split; [discriminate | reflexivity])).
Defined.

Lemma X4_witness :
  tensor_to_pil (opaque_batch 3) =
    decoded_head (opaque_batch 3) RGB :: decoded_tail (opaque_batch 3) RGB ∧
  let pil_images :=
    decoded_head (opaque_batch 3) RGB :: decoded_tail (opaque_batch 3) RGB in
  let g := grid_layout (decoded_head (opaque_batch 3) RGB)
             (decoded_tail (opaque_batch 3) RGB) 2 0 in
  t_at (to_tensor (compose g pil_images)) 0 1 3 0 = Qmake 255 255 ∧
  t_at (to_tensor (compose g pil_images)) 0 1 3 3 = Qmake 255 255.
Proof.
  split; [reflexivity|]. cbv zeta.
  pose proof (X4_output_holds_the_frames (opaque_batch 3) 2 0 _ _ eq_refl) as Hw.
  cbv zeta in Hw. destruct Hw as [_ Hpx].
  split.
  - exact (Hpx 1%nat 1%nat 1%nat 0%nat 0%nat ltac:(simpl; lia) ltac:(simpl; lia)
             ltac:(simpl; lia) ltac:(vm_compute; reflexivity)).
  - exact (Hpx 1%nat 1%nat 1%nat 3%nat 0%nat ltac:(simpl; lia) ltac:(simpl; lia)
             ltac:(simpl; lia) ltac:(vm_compute; reflexivity)).
Defined.

Lemma X5_witness :
  ∃ out,
    create_sprite_sheet (opaque_batch 10) 3 3 = Ok (out, 2, 2, 10) ∧
    t_rows out = 6%nat ∧ t_cols out = 6%nat.
Proof.
  eexists. split; [reflexivity|].
  pose proof (X5_returned_metadata (opaque_batch 10) 3 3 _ _ _ _ eq_refl) as Hw.
  cbv zeta in Hw. destruct Hw as (_ & _ & _ & _ & _ & Hrows & Hcols).
  split; [exact Hrows | exact Hcols].
Defined.

Lemma X6_witness :
  tensor_to_pil alpha_batch =
    decoded_head alpha_batch RGBA :: decoded_tail alpha_batch RGBA ∧
  t_chans alpha_batch = 4%nat ∧
  quantize (t_at alpha_batch 1 0 0 3) = 255 ∧
  let pil_images := decoded_head alpha_batch RGBA :: decoded_tail alpha_batch RGBA in
  let g := grid_layout (decoded_head alpha_batch RGBA)
             (decoded_tail alpha_batch RGBA) 2 0 in
  t_at (to_tensor (compose g pil_images)) 0 0 2 0 = Qmake 255 255.
Proof.
  split; [reflexivity|]. split; [reflexivity|]. split; [reflexivity|]. cbv zeta.
  exact (X6_opaque_pixels_are_copied alpha_batch 2 0 _ _ 1 0 0 0 0 eq_refl eq_refl
           ltac:(simpl; lia) ltac:(simpl; lia) ltac:(simpl; lia) eq_refl
           ltac:(vm_compute; split; discriminate)
           ltac:(vm_compute; reflexivity)).
Defined.

Lemma X8_witness :
  1 ≤ 4 ∧
  ∃ k, 1 ≤ k ∧ ∀ fuel, (Z.to_nat k ≤ fuel)%nat →
    ∃ w',
      create_tres_file fuel 64 64 4 0 (lit "anim") (lit "out") 2 fresh_world =
        Some (w', Raise ZeroDivisionError) ∧
      is_Some (fs w' !! resolve_target_dir (lit "out") fresh_world).
Proof.
  split; [lia|].
  destruct (X8_failed_call_leaves_directory 64 64 4 (lit "anim") (lit "out") 2
              fresh_world ltac:(lia)) as (k & Hk & Hcall).
  exists k. split; [exact Hk|]. intros fuel Hfuel.
  destruct (Hcall fuel Hfuel) as (w' & Hret & _ & Hdir & _).
  exists w'. split; [exact Hret | exact Hdir].
Defined.

Lemma X10_witness :
  os_path_isabs (base_path fresh_world) = true ∧
  ∃ w' path,
    create_tres_file 1 64 64 4 2 (lit "anim") (lit "out") 2 fresh_world =
      Some (w', Ok path) ∧
    os_path_isabs path = true.
Proof.
  split; [reflexivity|].
  destruct (create_tres_file 1 64 64 4 2 (lit "anim") (lit "out") 2 fresh_world)
    as [[w' [path|e]]|] eqn:Hcall.
  - exists w', path. split; [reflexivity|].
    exact (proj1 (proj2 (X10_returned_path_is_absolute 1 64 64 4 2 (lit "anim")
                           (lit "out") 2 fresh_world w' path eq_refl Hcall))).
  - vm_compute in Hcall. discriminate Hcall.
  - vm_compute in Hcall. discriminate Hcall.
Defined.

Lemma X11_witness :
  Forall (λ c, isspace c = true) [32; 9]%N ∧
  Forall (λ c, isspace c = true) [10]%N ∧
  resolve_target_dir ([32; 9]%N ++ lit "out" ++ [10]%N) fresh_world =
  resolve_target_dir (lit "out") fresh_world.
Proof.
  assert (Forall (λ c, isspace c = true) [32; 9]%N) as H1
    by (repeat constructor).
  assert (Forall (λ c, isspace c = true) [10]%N) as H2
    by (repeat constructor).
  split; [exact H1|]. split; [exact H2|].
  exact (proj1 (X11_directory_whitespace_ignored 1 64 64 4 2 (lit "anim")
                  (lit "out") [32; 9]%N [10]%N 2 fresh_world H1 H2)).
Defined.

Lemma X12_witness :
  2 ≠ 0 ∧ (3 ≤ 3)%nat ∧
  ∃ w_3,
    call_times 3 3 64 64 4 2 (lit "anim") (lit "out") 2 fresh_world =
      Some (w_3,
            (λ j : nat,
               Ok (tres_path_at (resolve_target_dir (lit "out") fresh_world)
                     (lit "anim") 2 (Z.of_nat j))) <$> seq 1 3).
Proof.
  split; [lia|]. split; [lia|].
  destruct (X12_repeated_calls_count_up 64 64 4 2 (lit "anim") (lit "out") 2
              fresh_world 3 3 ltac:(lia)
              (λ j _, fresh_world_has_no_candidate j) ltac:(lia))
    as (w_3 & Hcalls & _).
  exists w_3. exact Hcalls.
Defined.

Lemma X13_witness :
  2 ≠ 0 ∧
  ∃ h_id h_uid1 h_uid2,
    (generate_godot_tres_content (lit "anim_01.png") 64 64 4 2 fresh_world).2 =
      Ok (gd_resource_line (4 + 2) h_uid1 ++
          ext_resource_line h_uid2 (lit "anim_01.png") (lit "1_" ++ h_id) ++
          concat (frame_block (lit "1_" ++ h_id) 64 64 2 <$> range 4) ++
          resource_block 4) ∧
    length h_id = 10%nat ∧
    Forall (λ c, is_lower_hex c = true) (h_id ++ h_uid1 ++ h_uid2).
Proof.
  split; [lia|].
  destruct (X13_identifiers_are_hex (lit "anim_01.png") 64 64 4 2 fresh_world
              ltac:(lia))
    as (h_id & h_uid1 & h_uid2 & Hdoc & _ & _ & _ & Hlen & _ & _ & Hhex).
  exists h_id, h_uid1, h_uid2.
  split; [exact Hdoc|]. split; [exact Hlen | exact Hhex].
Defined.

Lemma X14_witness :
  2 ≠ 0 ∧
  ∃ (id uid1 uid2 : str) (ids : list str) (rects : list (Z * Z * Z * Z)),
    (generate_godot_tres_content (lit "anim_01.png") 64 64 4 2 fresh_world).2 =
      Ok (gd_resource_line (4 + 2) uid1 ++
          ext_resource_line uid2 (lit "anim_01.png") id ++
          concat (zip_with (atlas_block id) ids rects) ++
          animation_block (animation_entry <$> ids)) ∧
    length ids = 4%nat ∧ NoDup ids ∧
    ids !! 3%nat = Some (lit "AtlasTexture_4").
Proof.
  split; [lia|].
  destruct (X14_sub_resource_ids_are_unique (lit "anim_01.png") 64 64 4 2
              fresh_world ltac:(lia))
    as (id & uid1 & uid2 & ids & rects & Hdoc & Hids & _ & Hnodup & Hnames).
  exists id, uid1, uid2, ids, rects.
  split; [exact Hdoc|]. split; [exact Hids|]. split; [exact Hnodup|].
  exact (Hnames 3 ltac:(lia)).
Defined.


Lemma X15_witness :
  0 ≤ 7 ∧
  format_zero_padded 7 3 = lit "007" ∧
  decimal_value (format_zero_padded 7 3) = 7.
Proof.
  split; [lia|]. split; [reflexivity|].
  exact (proj1 (proj2 (proj2 (proj2 (proj2
           (X15_index_field_round_trip 7 3 ltac:(lia))))))).
Defined.

Lemma X17_witness :
  declared_int sprite_INPUT_TYPES "column_count" 2 = true ∧
  declared_int sprite_INPUT_TYPES "row_count" 0 = true ∧
  tensor_to_pil (opaque_batch 3) =
    decoded_head (opaque_batch 3) RGB :: decoded_tail (opaque_batch 3) RGB ∧
  let g := grid_layout (decoded_head (opaque_batch 3) RGB)
             (decoded_tail (opaque_batch 3) RGB) 2 0 in
  column_count g = 2.
Proof.
  split; [reflexivity|]. split; [reflexivity|]. split; [reflexivity|]. cbv zeta.
  pose proof (X17_declared_layout (opaque_batch 3) 2 0 _ _ eq_refl eq_refl eq_refl)
    as Hw.
  cbv zeta in Hw. exact (proj1 Hw).
Defined.

Lemma X18_witness :
  1 ≤ 2 ∧ 0 ≤ 0 ∧
  ∃ out,
    create_sprite_sheet (opaque_batch 3) 2 0 = Ok (out, 2, 2, 3) ∧
    ∃ (id uid1 uid2 : str) (ids : list str) (rects : list (Z * Z * Z * Z)),
      (generate_godot_tres_content (lit "anim_01.png") 2 2 3 2 fresh_world).2 =
        Ok (gd_resource_line (3 + 2) uid1 ++
            ext_resource_line uid2 (lit "anim_01.png") id ++
            concat (zip_with (atlas_block id) ids rects) ++
            animation_block (animation_entry <$> ids)) ∧
      length rects = 3%nat ∧
      ∀ (i : nat) x y rw rh,
        rects !! i = Some (x, y, rw, rh) →
        rw = 2 ∧ rh = 2 ∧
        (Z.to_nat x + 2 ≤ t_cols out)%nat ∧ (Z.to_nat y + 2 ≤ t_rows out)%nat ∧
        t_at out 0 (Z.to_nat y) (Z.to_nat x) 3 = Qmake 255 255.
Proof.
  split; [lia|]. split; [lia|].
  eexists. split; [reflexivity|].
  destruct (X18_regions_hold_the_frames (opaque_batch 3) 2 0 (lit "anim_01.png")
              fresh_world _ 2 2 3 ltac:(lia) ltac:(lia) eq_refl)
    as (id & uid1 & uid2 & ids & rects & Hdoc & _ & Hlen & Hrects).
  exists id, uid1, uid2, ids, rects.
  split; [exact Hdoc|]. split; [exact Hlen|].
  intros i x y rw rh Hi.
  destruct (Hrects i x y rw rh Hi)
    as (_ & Hrw & Hrh & _ & _ & Hcols & Hrows & Hpx & _).
  split; [exact Hrw|]. split; [exact Hrh|].
  split; [exact Hcols|]. split; [exact Hrows|].
  pose proof (Hpx 0%nat 0%nat 3%nat 0%nat ltac:(simpl; lia) ltac:(simpl; lia))
    as Hval.
  rewrite !Nat.add_0_r in Hval. exact Hval.
Defined.

End ExtraRuns.
